(** * live-beats-aws: the CDK resource graph, embedded and checked

    The repository declares four CloudFormation stacks with the AWS CDK
    (v2.81): [FoundationStack] (network), [DatabaseStack] (RDS instance and
    its credentials), [AppStack] (ECS service behind a load balancer) and the
    optional [RoutingStack] (Global Accelerator).  Each stack constructor is
    translated here statement by statement into a state-and-error monad over
    the construct tree; the CDK constructs it calls are modelled in the
    modules [ec2], [iam], [secretsManager], [rds], [ecs], [elbv2] and
    [globalaccelerator], after the behaviour documented for aws-cdk-lib. *)

From Stdlib Require Import ZArith String Ascii List Bool Lia.
From stdpp Require Import base option list strings pretty.
Import ListNotations.

Local Open Scope Z_scope.

(** ** Values fixed only at deploy time

    Attributes such as a load balancer's DNS name or a secret's ARN are
    tokens while the graph is built and become strings when CloudFormation
    creates the resource.  A [Provider] supplies those strings. *)

Record Provider := {
  partitionName : string;           (* AWS::Partition *)
  accountId : string;               (* AWS::AccountId *)
  regionName : string;              (* AWS::Region *)
  dnsNameOf : string -> string;     (* construct path of a load balancer -> DNSName *)
  secretArnOf : string -> string;   (* construct path of a secret -> its ARN *)
  acceleratorDnsNameOf : string -> string
}.

(** ** Duration (aws-cdk-lib/core) *)

Inductive Duration :=
| Seconds (amount : Z)
| Days (amount : Z).

Module Duration.
Definition seconds (n : Z) : Duration := Seconds n.
Definition days (n : Z) : Duration := Days n.
Definition toSeconds (d : Duration) : Z :=
  match d with
  | Seconds n => n
  | Days n => n * 86400
  end.
End Duration.

(** ** Stack environment and ARN formatting (aws-cdk-lib/core) *)

Record Environment := {
  account : option string;
  region : option string
}.

Record StackProps := {
  env : option Environment
}.

Record Stack := {
  stackId : string;
  stackEnv : option Environment
}.

Inductive Error :=
| InvalidArnSeparator (sep : string)
| UnknownSecurityGroup (ref : nat)
| NoDefaultPort.

Module Stack.
(** [stack.region]: the region of [props.env] when one is given, otherwise
    the region the stack is deployed to. *)
Definition region (pv : Provider) (s : Stack) : string :=
  default (regionName pv) (stackEnv s ≫= region).
Definition account (pv : Provider) (s : Stack) : string :=
  default (accountId pv) (stackEnv s ≫= account).
Definition partition (pv : Provider) (_ : Stack) : string :=
  partitionName pv.
(** Path of a construct in the tree: [<stack id>/<construct id>]. *)
Definition path (s : Stack) (id : string) : string :=
  stackId s +:+ "/" +:+ id.
End Stack.

Record ArnComponents := {
  arnPartition : option string;
  service : string;
  arnRegion : option string;
  arnAccount : option string;
  resource : string;
  sep : option string;
  resourceName : option string
}.

Module Arn.
(** [Arn.format(components, stack)]: the pieces are joined as
    arn:partition:service:region:account:resource, then the separator and
    the resource name when there is one.  The separator defaults to a
    slash and anything but slash, colon or the empty string is refused. *)
Definition format (pv : Provider) (c : ArnComponents) (s : Stack)
  : Error + string :=
  let partition := default (Stack.partition pv s) (arnPartition c) in
  let region := default (Stack.region pv s) (arnRegion c) in
  let account := default (Stack.account pv s) (arnAccount c) in
  let sep := default "/" (sep c) in
  let values :=
    ["arn"; ":"; partition; ":"; service c; ":"; region; ":"; account; ":";
     resource c] in
  if negb (String.eqb sep "/") && negb (String.eqb sep ":")
     && negb (String.eqb sep "")
  then inl (InvalidArnSeparator sep)
  else
    let values :=
      match resourceName c with
      | Some n => values ++ [sep; n]
      | None => values
      end in
    inr (String.concat "" values).
End Arn.

(** ** IPv4 addresses and CIDR blocks

    Security-group rules name their peers by CIDR strings such as
    10.0.0.0/21.  To say which packets a rule admits the strings are parsed
    into a base address and a prefix length. *)

Module Cidr.
Definition digit (c : ascii) : option Z :=
  let n := Z.of_nat (nat_of_ascii c) in
  if (48 <=? n) && (n <=? 57) then Some (n - 48) else None.

Fixpoint decimalFrom (acc : Z) (s : string) : option Z :=
  match s with
  | EmptyString => Some acc
  | String c rest =>
      match digit c with
      | Some d => decimalFrom (10 * acc + d) rest
      | None => None
      end
  end.

Definition decimal (s : string) : option Z :=
  match s with
  | EmptyString => None
  | _ => decimalFrom 0 s
  end.

(** Split at every occurrence of [c]. *)
Fixpoint split (c : ascii) (s : string) : list string :=
  match s with
  | EmptyString => [EmptyString]
  | String x rest =>
      if Ascii.eqb x c then EmptyString :: split c rest
      else match split c rest with
           | w :: ws => String x w :: ws
           | [] => [String x EmptyString]
           end
  end.

Definition octet (s : string) : option Z :=
  n ← decimal s; if n <=? 255 then Some n else None.

(** A dotted quad as a number below 2^32. *)
Definition address (s : string) : option Z :=
  match split "." s with
  | [a; b; c; d] =>
      a ← octet a; b ← octet b; c ← octet c; d ← octet d;
      Some (((a * 256 + b) * 256 + c) * 256 + d)
  | _ => None
  end.

Definition parse (s : string) : option (Z * Z) :=
  match split "/" s with
  | [a; n] =>
      a ← address a; n ← decimal n;
      if n <=? 32 then Some (a, n) else None
  | _ => None
  end.

(** [contains block a]: address [a] lies in the block. *)
Definition contains (block : Z * Z) (a : Z) : bool :=
  let '(base, n) := block in
  Z.shiftr a (32 - n) =? Z.shiftr base (32 - n).
End Cidr.

(** ** The construct tree

    Constructs are JavaScript objects; those that later statements mutate
    through a second reference live in a store and are named by their index
    in it.  Security groups are the case that matters: the database's group
    is created in one stack and reached again from another through
    [props.database]. *)

Module ec2.

Inductive Protocol := ALL | TCP | UDP | ICMP.

#[global] Instance Protocol_eq_dec : EqDecision Protocol.
Proof. solve_decision. Defined.

Record Port := {
  protocol : Protocol;
  fromPort : option Z;
  toPort : option Z
}.

#[global] Instance Port_eq_dec : EqDecision Port.
Proof. solve_decision. Defined.

Module Port.
Definition tcp (p : Z) : Port :=
  {| protocol := TCP; fromPort := Some p; toPort := Some p |}.
Definition allTcp : Port :=
  {| protocol := TCP; fromPort := Some 0; toPort := Some 65535 |}.
Definition allTraffic : Port :=
  {| protocol := ALL; fromPort := None; toPort := None |}.

(** Does the port range cover protocol [proto], port [p]? *)
Definition covers (r : Port) (proto : Protocol) (p : Z) : bool :=
  match protocol r with
  | ALL => true
  | q =>
      bool_decide (q = proto)
      && match fromPort r, toPort r with
         | Some lo, Some hi => (lo <=? p) && (p <=? hi)
         | _, _ => true
         end
  end.
End Port.

Inductive SubnetType := PUBLIC | PRIVATE_WITH_EGRESS | PRIVATE_ISOLATED.

#[global] Instance SubnetType_eq_dec : EqDecision SubnetType.
Proof. solve_decision. Defined.

Record SubnetConfiguration := {
  cidrMask : Z;
  name : string;
  subnetType : SubnetType
}.

Record VpcProps := {
  ipAddresses : string;
  natGateways : Z;
  maxAzs : Z;
  subnetConfiguration : list SubnetConfiguration
}.

Record Vpc := {
  vpcId : string;
  vpcProps : VpcProps
}.

Record Subnet := {
  subnetGroup : string;
  subnetKind : SubnetType;
  availabilityZone : nat
}.

Record SubnetSelection := {
  selectSubnetType : SubnetType
}.

Module Vpc.
(** [vpc.vpcCidrBlock]: the block the network was given. *)
Definition vpcCidrBlock (v : Vpc) : string := ipAddresses (vpcProps v).

(** One subnet of every configured group in every availability zone. *)
Definition subnets (v : Vpc) : list Subnet :=
  flat_map
    (fun c =>
       map (fun az => {| subnetGroup := name c;
                         subnetKind := subnetType c;
                         availabilityZone := az |})
           (seq 0 (Z.to_nat (maxAzs (vpcProps v)))))
    (subnetConfiguration (vpcProps v)).

Definition ofType (v : Vpc) (t : SubnetType) : list Subnet :=
  filter (fun s => subnetKind s = t) (subnets v).

Definition selectSubnets (v : Vpc) (sel : SubnetSelection) : list Subnet :=
  ofType v (selectSubnetType sel).

(** The selection made when none is asked for: the private subnets with
    egress if there are any, else the isolated ones, else the public ones. *)
Definition defaultSubnets (v : Vpc) : list Subnet :=
  match ofType v PRIVATE_WITH_EGRESS, ofType v PRIVATE_ISOLATED with
  | [], [] => ofType v PUBLIC
  | [], isolated => isolated
  | withEgress, _ => withEgress
  end.
End Vpc.

(** A peer of a rule: a CIDR block or another security group (by its
    place in the store). *)
Inductive Peer :=
| CidrIPv4 (cidrIp : string)
| SecurityGroupPeer (ref : nat).

#[global] Instance Peer_eq_dec : EqDecision Peer.
Proof. solve_decision. Defined.

Module Peer.
Definition anyIpv4 : Peer := CidrIPv4 "0.0.0.0/0".
Definition ipv4 (cidrIp : string) : Peer := CidrIPv4 cidrIp.
End Peer.

Record Rule := {
  peer : Peer;
  connection : Port;
  ruleDescription : string
}.

Record SecurityGroupProps := {
  sgVpc : Vpc;
  description : string;
  allowAllOutbound : option bool
}.

(** A security group with the rules added to it so far.  With
    [allowAllOutbound] (the default when the property is left out) the
    group has the single rule that lets all traffic out, and no further
    egress rule is recorded. *)
Record SecurityGroup := {
  sgPath : string;
  sgProps : SecurityGroupProps;
  ingressRules : list Rule;
  egressRules : list Rule
}.

Definition allowsAllOutbound (g : SecurityGroup) : bool :=
  default true (allowAllOutbound (sgProps g)).

(** What [x.connections] holds: the security groups of [x] and the peers
    that stand for [x] in somebody else's rule. *)
Record Connections := {
  securityGroups : list nat;
  peers : list Peer;
  defaultPort : option Port
}.

Module Connections.
(** [new ec2.Connections({ securityGroups })] *)
Definition ofSecurityGroups (gs : list nat) : Connections :=
  {| securityGroups := gs; peers := map SecurityGroupPeer gs;
     defaultPort := None |}.
(** The [connections] of a bare peer. *)
Definition ofPeer (p : Peer) : Connections :=
  {| securityGroups := []; peers := [p]; defaultPort := None |}.
End Connections.

End ec2.

(** [IConnectable]: whatever has [connections], so that it can stand as the
    other side of [allowFrom] and [allowTo]. *)
Class IConnectable (A : Type) := connectionsOf : A -> ec2.Connections.

#[global] Instance Connections_connectable : IConnectable ec2.Connections :=
  fun c => c.

#[global] Instance Peer_connectable : IConnectable ec2.Peer :=
  ec2.Connections.ofPeer.

(** ** Building the tree: state and errors

    A constructor runs against the tree built so far and either throws or
    returns its result with the tree as it left it.  The tree keeps what the
    properties below speak of: the security groups, and the [CfnOutput]
    constructs the code creates with [new cdk.CfnOutput] (the exports that
    synthesis writes into a template for a reference from another stack are
    no constructs of the code and are not kept).  The checks the library
    makes on the id of a construct (no id twice in one scope, a well-formed
    stack name, no unresolved token) and on a literal secret ARN are not
    kept either: what a constructor leaves behind is stated for the runs
    that return. *)

Record CfnOutput := {
  outputStack : string;
  outputId : string;
  outputValue : string
}.

Record App := {
  groups : list ec2.SecurityGroup;   (* the security-group store *)
  outputs : list CfnOutput           (* the CfnOutput constructs, in order *)
}.

Definition emptyApp : App := {| groups := []; outputs := [] |}.

Definition Synth (A : Type) : Type := App -> Error + (A * App).

Definition pure {A} (a : A) : Synth A := fun app => inr (a, app).

Definition andThen {A B} (c : Synth A) (k : A -> Synth B) : Synth B :=
  fun app =>
    match c app with
    | inl e => inl e
    | inr (a, app') => k a app'
    end.

Definition throw {A} (e : Error) : Synth A := fun _ => inl e.

Definition liftResult {A} (r : Error + A) : Synth A :=
  fun app => match r with inl e => inl e | inr a => inr (a, app) end.

Notation "'let*' x ':=' c 'in' k" := (andThen c (fun x => k))
  (at level 10, x pattern, c at level 100, k at level 200).
Notation "c ';;' k" := (andThen c (fun _ => k))
  (at level 100, k at level 200, right associativity).

Fixpoint forEach {A} (l : list A) (f : A -> Synth unit) : Synth unit :=
  match l with
  | [] => pure tt
  | x :: rest => f x ;; forEach rest f
  end.

Definition newCfnOutput (scope : Stack) (id value : string) : Synth unit :=
  fun app =>
    inr (tt, {| groups := groups app;
                outputs := outputs app ++
                  [{| outputStack := stackId scope; outputId := id;
                      outputValue := value |}] |}).

Module SecurityGroup.
Import ec2.

(** [new ec2.SecurityGroup(scope, id, props)]: a fresh group without
    rules; the result is its reference. *)
Definition new (scope : Stack) (id : string) (props : SecurityGroupProps)
  : Synth nat :=
  fun app =>
    inr (length (groups app),
         {| groups := groups app ++
              [{| sgPath := Stack.path scope id; sgProps := props;
                  ingressRules := []; egressRules := [] |}];
            outputs := outputs app |}).

Definition sameRule (p : Peer) (c : Port) (r : Rule) : bool :=
  bool_decide (peer r = p) && bool_decide (connection r = c).

Definition update (g : nat) (f : SecurityGroup -> SecurityGroup)
  : Synth unit :=
  fun app =>
    match groups app !! g with
    | None => inl (UnknownSecurityGroup g)
    | Some sg =>
        inr (tt, {| groups := <[g := f sg]> (groups app);
                    outputs := outputs app |})
    end.

(** [sg.addIngressRule(peer, connection, description)]; a rule for the same
    peer and ports that is already there is not added twice. *)
Definition addIngressRule (g : nat) (p : Peer) (c : Port) (d : string)
  : Synth unit :=
  update g (fun sg =>
    if existsb (sameRule p c) (ingressRules sg) then sg
    else {| sgPath := sgPath sg; sgProps := sgProps sg;
            ingressRules := ingressRules sg ++
              [{| peer := p; connection := c; ruleDescription := d |}];
            egressRules := egressRules sg |}).

(** [sg.addEgressRule(peer, connection, description)]; ignored when the
    group allows all outbound traffic, whose one rule subsumes it. *)
Definition addEgressRule (g : nat) (p : Peer) (c : Port) (d : string)
  : Synth unit :=
  update g (fun sg =>
    if allowsAllOutbound sg then sg
    else if existsb (sameRule p c) (egressRules sg) then sg
    else {| sgPath := sgPath sg; sgProps := sgProps sg;
            ingressRules := ingressRules sg;
            egressRules := egressRules sg ++
              [{| peer := p; connection := c; ruleDescription := d |}] |}).

(** [sg.connections] *)
Definition connections (g : nat) : Connections :=
  Connections.ofSecurityGroups [g].
End SecurityGroup.

Module Connections.
Import ec2.

(** [this.allowFrom(other, port, description)]: every security group of
    [this] gets an ingress rule for every peer of [other], and, the rule
    being made on both sides, every security group of [other] gets the
    matching egress rule towards the peers of [this]. *)
Definition allowFrom `{IConnectable B} (this : Connections) (other : B)
    (c : Port) (d : string) : Synth unit :=
  let other := connectionsOf other in
  forEach (securityGroups this) (fun g =>
    forEach (peers other) (fun p => SecurityGroup.addIngressRule g p c d)) ;;
  forEach (securityGroups other) (fun g =>
    forEach (peers this) (fun p => SecurityGroup.addEgressRule g p c d)).

(** [this.allowTo(other, port, description)]: the egress rules on the
    groups of [this], and the matching ingress rules on the groups of
    [other]. *)
Definition allowTo `{IConnectable B} (this : Connections) (other : B)
    (c : Port) (d : string) : Synth unit :=
  let other := connectionsOf other in
  forEach (securityGroups this) (fun g =>
    forEach (peers other) (fun p => SecurityGroup.addEgressRule g p c d)) ;;
  forEach (securityGroups other) (fun g =>
    forEach (peers this) (fun p => SecurityGroup.addIngressRule g p c d)).

(** [this.allowDefaultPortFrom(other, description)] *)
Definition allowDefaultPortFrom `{IConnectable B} (this : Connections)
    (other : B) (d : string) : Synth unit :=
  match defaultPort this with
  | Some c => allowFrom this other c d
  | None => throw NoDefaultPort
  end.
End Connections.

(** ** IAM, Secrets Manager, RDS *)

Module iam.
Record PolicyStatement := {
  actions : list string;
  resources : list string
}.

Record Role := {
  rolePath : string;
  assumedBy : string;               (* the service principal *)
  policy : list PolicyStatement
}.

Definition newRole (scope : Stack) (id assumedBy : string) : Role :=
  {| rolePath := Stack.path scope id; assumedBy := assumedBy; policy := [] |}.

(** [role.addToPrincipalPolicy(statement)] *)
Definition addToPrincipalPolicy (r : Role) (s : PolicyStatement) : Role :=
  {| rolePath := rolePath r; assumedBy := assumedBy r;
     policy := policy r ++ [s] |}.
End iam.

Module secretsManager.
Record SecretStringGenerator := {
  secretStringTemplate : option (list (string * string));
      (* the object handed to JSON.stringify, field by field *)
  generateStringKey : option string;
  excludeLowercase : option bool;
  excludeNumbers : option bool;
  excludeUppercase : option bool;
  excludePunctuation : option bool;
  includeSpace : option bool;
  passwordLength : option Z
}.

Record Secret := {
  secretPath : string;
  secretDescription : option string;
  generateSecretString : option SecretStringGenerator;
  secretArn : string
}.

(** [new secretsManager.Secret(scope, id, props)]; its ARN is the one the
    provider gives the resource. *)
Definition newSecret (pv : Provider) (scope : Stack) (id : string)
    (description : string) (gen : SecretStringGenerator) : Secret :=
  {| secretPath := Stack.path scope id;
     secretDescription := Some description;
     generateSecretString := Some gen;
     secretArn := secretArnOf pv (Stack.path scope id) |}.

(** [Secret.fromSecretCompleteArn(scope, id, arn)]: a reference to a secret
    that exists elsewhere.  The ARN is taken as it is handed over, as the
    library does with the deploy-time value the script passes (a literal
    ARN it would first check for its six-character suffix). *)
Definition fromSecretCompleteArn (scope : Stack) (id arn : string) : Secret :=
  {| secretPath := Stack.path scope id;
     secretDescription := None;
     generateSecretString := None;
     secretArn := arn |}.

(** The fields of the JSON document the secret is generated with: those of
    the template, then the key the generated password is stored under. *)
Definition generatedKeys (s : Secret) : list string :=
  match generateSecretString s with
  | Some g =>
      map fst (default [] (secretStringTemplate g))
      ++ option_list (generateStringKey g)
  | None => []
  end.
End secretsManager.

Module rds.
Inductive DatabaseInstanceEngine := POSTGRES | MYSQL.

Record InstanceType := {
  instanceClass : string;
  instanceSize : string
}.

(** Where the main user's name and password come from; [credentialsSecret]
    is the secret they are read from, when there is one. *)
Record Credentials := {
  credentialsSecret : option secretsManager.Secret
}.

Module Credentials.
(** [Credentials.fromSecret(secret)] *)
Definition fromSecret (s : secretsManager.Secret) : Credentials :=
  {| credentialsSecret := Some s |}.
End Credentials.

Record DatabaseInstanceProps := {
  vpc : ec2.Vpc;
  vpcSubnets : ec2.SubnetSelection;
  engine : DatabaseInstanceEngine;
  instanceType : InstanceType;
  port : Z;
  multiAz : bool;
  allowMajorVersionUpgrade : bool;
  autoMinorVersionUpgrade : bool;
  allocatedStorage : Z;
  maxAllocatedStorage : Z;
  deleteAutomatedBackups : bool;
  backupRetention : Duration;
  securityGroups : list nat;
  publiclyAccessible : bool;
  credentials : Credentials
}.

(** [secret.attach(instance)]: the secret completed with the connection
    details of the instance it belongs to. *)
Record SecretTargetAttachment := {
  attachedSecret : secretsManager.Secret;
  attachmentTarget : string
}.

Record DatabaseInstance := {
  dbPath : string;
  dbProps : DatabaseInstanceProps;
  secret : option SecretTargetAttachment;
  connections : ec2.Connections
}.

(** [new rds.DatabaseInstance(scope, id, props)]: when its credentials come
    from a secret the instance attaches that secret to itself, and its
    [connections] are those of its security groups, with the database port
    as the default port. *)
Definition newDatabaseInstance (scope : Stack) (id : string)
    (props : DatabaseInstanceProps) : DatabaseInstance :=
  {| dbPath := Stack.path scope id;
     dbProps := props;
     secret :=
       (fun s => {| attachedSecret := s;
                    attachmentTarget := Stack.path scope id |})
       <$> credentialsSecret (credentials props);
     connections :=
       {| ec2.securityGroups := securityGroups props;
          ec2.peers := map ec2.SecurityGroupPeer (securityGroups props);
          ec2.defaultPort := Some (ec2.Port.tcp (port props)) |} |}.

#[global] Instance DatabaseInstance_connectable
  : IConnectable DatabaseInstance := connections.

(** Connection details an attachment to an RDS instance adds to the secret's
    JSON document. *)
Definition connectionKeys : list string :=
  ["engine"; "host"; "port"; "dbInstanceIdentifier"].

(** The fields of the JSON document of the instance's secret once the
    instance exists: those the secret was generated with, then those its
    attachment adds.  An instance that attached no secret has none. *)
Definition secretKeys (d : DatabaseInstance) : list string :=
  match secret d with
  | Some attachment =>
      secretsManager.generatedKeys (attachedSecret attachment)
      ++ connectionKeys
  | None => []
  end.
End rds.

(** ** FoundationStack (cdk/lib/foundationStack.ts) *)

Module foundationStack.
Record FoundationStackProps := {
  env : option Environment;
  stage : string;
  appName : string
}.

Record FoundationStack := {
  this : Stack;
  vpc : ec2.Vpc
}.

Definition new (id : string) (props : FoundationStackProps)
  : Synth FoundationStack :=
  let this := {| stackId := id; stackEnv := env props |} in
  let vpc :=
    {| ec2.vpcId :=
         Stack.path this (stage props +:+ "-" +:+ appName props +:+ "-vpc");
       ec2.vpcProps :=
         {| ec2.ipAddresses := "10.0.0.0/21";
            ec2.natGateways := 0;
            ec2.maxAzs := 2;
            ec2.subnetConfiguration :=
              [ {| ec2.cidrMask := 23; ec2.name := "public";
                   ec2.subnetType := ec2.PUBLIC |};
                {| ec2.cidrMask := 23; ec2.name := "private";
                   ec2.subnetType := ec2.PRIVATE_ISOLATED |} ] |} |} in
  pure {| this := this; vpc := vpc |}.
End foundationStack.

(** ** DatabaseStack (cdk/lib/databaseStack.ts) *)

Module databaseStack.
Record DatabaseStackProps := {
  env : option Environment;
  stage : string;
  appName : string;
  vpc : ec2.Vpc
}.

(** The two public fields of the class, and the constructor's local
    constructs, which are children of the stack in the tree. *)
Record DatabaseStack := {
  this : Stack;
  database : rds.DatabaseInstance;
  databaseCredentialsSecretArn : string;
  databaseSecurityGroup : nat;
  databaseCredentialsSecret : secretsManager.Secret
}.

Definition new (pv : Provider) (id : string) (props : DatabaseStackProps)
  : Synth DatabaseStack :=
  let this := {| stackId := id; stackEnv := env props |} in
  let prefix := stage props +:+ "-" +:+ appName props in
  let dbEngine := rds.POSTGRES in
  let dbInstanceType :=
    {| rds.instanceClass := "BURSTABLE4_GRAVITON";
       rds.instanceSize := "MICRO" |} in
  let dbPort := 5432 in
  let dbUsername := "postgres" in
  let* databaseSecurityGroup :=
    SecurityGroup.new this (prefix +:+ "-database-security-group")
      {| ec2.sgVpc := vpc props;
         ec2.description := "Control access to the database";
         ec2.allowAllOutbound := None |} in
  let databaseCredentialsSecret :=
    secretsManager.newSecret pv this
      (prefix +:+ "-database-credentials-secret")
      "Database main user credentials"
      {| secretsManager.secretStringTemplate :=
           Some [("username", dbUsername)];
         secretsManager.generateStringKey := Some "password";
         secretsManager.excludeLowercase := None;
         secretsManager.excludeNumbers := None;
         secretsManager.excludeUppercase := None;
         secretsManager.excludePunctuation := Some true;
         secretsManager.includeSpace := Some false;
         secretsManager.passwordLength := None |} in
  let databaseCredentialsSecretArn :=
    secretsManager.secretArn databaseCredentialsSecret in
  let database :=
    rds.newDatabaseInstance this (prefix +:+ "-database")
      {| rds.vpc := vpc props;
         rds.vpcSubnets := {| ec2.selectSubnetType := ec2.PRIVATE_ISOLATED |};
         rds.engine := dbEngine;
         rds.instanceType := dbInstanceType;
         rds.port := dbPort;
         rds.multiAz := false;
         rds.allowMajorVersionUpgrade := true;
         rds.autoMinorVersionUpgrade := true;
         rds.allocatedStorage := 20;
         rds.maxAllocatedStorage := 40;
         rds.deleteAutomatedBackups := false;
         rds.backupRetention := Duration.days 7;
         rds.securityGroups := [databaseSecurityGroup];
         rds.publiclyAccessible := false;
         rds.credentials :=
           rds.Credentials.fromSecret databaseCredentialsSecret |} in
  pure {| this := this;
          database := database;
          databaseCredentialsSecretArn := databaseCredentialsSecretArn;
          databaseSecurityGroup := databaseSecurityGroup;
          databaseCredentialsSecret := databaseCredentialsSecret |}.
End databaseStack.

(** ** ECS and the load balancer *)

Module ecs.
Inductive Protocol := TCP | UDP.
Inductive AppProtocol := http | http2 | grpc.

Record PortMapping := {
  portMappingName : string;
  containerPort : Z;
  protocol : Protocol;
  appProtocol : AppProtocol
}.

Record AwsLogDriverProps := {
  streamPrefix : string;
  logRetention : Z
}.

(** [ecs.Secret.fromSecretsManager(secret, field?)]: the value of one JSON
    field of the secret, or of the whole secret when no field is named. *)
Record Secret := {
  fromSecretArn : string;
  field : option string
}.

Module Secret.
Definition fromSecretsManager (s : secretsManager.Secret)
    (field : option string) : Secret :=
  {| fromSecretArn := secretsManager.secretArn s; field := field |}.
End Secret.

Record ContainerDefinitionOptions := {
  image : string;                         (* ContainerImage.fromAsset(path) *)
  portMappings : list PortMapping;
  logging : AwsLogDriverProps;
  environment : list (string * string);
  secrets : list (string * Secret)
}.

Record ContainerDefinition := {
  containerPath : string;
  containerOptions : ContainerDefinitionOptions
}.

Record FargateTaskDefinition := {
  taskDefinitionPath : string;
  cpu : Z;
  memoryLimitMiB : Z;
  taskRole : iam.Role;
  executionRole : iam.Role;
  containers : list ContainerDefinition
}.

(** [taskDefinition.addContainer(id, options)] *)
Definition addContainer (scope : Stack) (td : FargateTaskDefinition)
    (id : string) (o : ContainerDefinitionOptions)
  : ContainerDefinition * FargateTaskDefinition :=
  let c := {| containerPath := Stack.path scope id; containerOptions := o |} in
  (c, {| taskDefinitionPath := taskDefinitionPath td;
         cpu := cpu td; memoryLimitMiB := memoryLimitMiB td;
         taskRole := taskRole td; executionRole := executionRole td;
         containers := containers td ++ [c] |}).

Record Cluster := {
  clusterPath : string;
  clusterName : option string;
  clusterVpc : ec2.Vpc
}.

Record DeploymentCircuitBreaker := {
  rollback : bool
}.

Record FargateServiceProps := {
  serviceName : option string;
  cluster : Cluster;
  taskDefinition : FargateTaskDefinition;
  desiredCount : option Z;
  securityGroups : list nat;
  assignPublicIp : option bool;
  circuitBreaker : option DeploymentCircuitBreaker;
  minHealthyPercent : option Z;
  maxHealthyPercent : option Z;
  enableExecuteCommand : option bool;
  vpcSubnets : option ec2.SubnetSelection
}.

Record FargateService := {
  servicePath : string;
  serviceProps : FargateServiceProps;
  connections : ec2.Connections
}.

Definition newFargateService (scope : Stack) (id : string)
    (props : FargateServiceProps) : FargateService :=
  {| servicePath := Stack.path scope id;
     serviceProps := props;
     connections := ec2.Connections.ofSecurityGroups (securityGroups props) |}.

#[global] Instance FargateService_connectable
  : IConnectable FargateService := connections.

(** The port a load balancer reaches the service on: the first port
    mapping of the task definition's first container. *)
Definition loadBalancerTargetPort (s : FargateService) : option Z :=
  c ← head (containers (taskDefinition (serviceProps s)));
  m ← head (portMappings (containerOptions c));
  Some (containerPort m).

(** The subnets the tasks are placed in: those selected by [vpcSubnets];
    without a selection, the public ones when the tasks get a public
    address and the network's default selection otherwise. *)
Definition taskSubnets (s : FargateService) : list ec2.Subnet :=
  let v := clusterVpc (cluster (serviceProps s)) in
  match vpcSubnets (serviceProps s) with
  | Some sel => ec2.Vpc.selectSubnets v sel
  | None =>
      if default false (assignPublicIp (serviceProps s))
      then ec2.Vpc.ofType v ec2.PUBLIC
      else ec2.Vpc.defaultSubnets v
  end.
End ecs.

Module elbv2.
Inductive ApplicationProtocol := HTTP | HTTPS.

Record ApplicationLoadBalancerProps := {
  loadBalancerName : option string;
  vpc : ec2.Vpc;
  internetFacing : bool;
  securityGroup : nat
}.

Record ApplicationLoadBalancer := {
  loadBalancerPath : string;
  loadBalancerProps : ApplicationLoadBalancerProps;
  loadBalancerDnsName : string;
  connections : ec2.Connections
}.

(** [new ApplicationLoadBalancer(scope, id, props)]; the DNS name is the
    one the provider generates for it. *)
Definition newApplicationLoadBalancer (pv : Provider) (scope : Stack)
    (id : string) (props : ApplicationLoadBalancerProps)
  : ApplicationLoadBalancer :=
  {| loadBalancerPath := Stack.path scope id;
     loadBalancerProps := props;
     loadBalancerDnsName := dnsNameOf pv (Stack.path scope id);
     connections := ec2.Connections.ofSecurityGroups [securityGroup props] |}.

#[global] Instance ApplicationLoadBalancer_connectable
  : IConnectable ApplicationLoadBalancer := connections.

Record ApplicationListener := {
  listenerPath : string;
  listenerPort : Z;
  listenerLoadBalancer : ApplicationLoadBalancer;
  listenerConnections : ec2.Connections
}.

(** [lb.addListener(id, { port })]: the listener is open, so anyone may
    reach the load balancer's security groups on its port. *)
Definition addListener (scope : Stack) (lb : ApplicationLoadBalancer)
    (id : string) (port : Z) : Synth ApplicationListener :=
  let l :=
    {| listenerPath := Stack.path scope id;
       listenerPort := port;
       listenerLoadBalancer := lb;
       listenerConnections :=
         {| ec2.securityGroups := ec2.securityGroups (connections lb);
            ec2.peers := ec2.peers (connections lb);
            ec2.defaultPort := Some (ec2.Port.tcp port) |} |} in
  Connections.allowDefaultPortFrom (listenerConnections l)
    ec2.Peer.anyIpv4
    ("Allow from anyone on port " +:+ pretty port) ;;
  pure l.

Record HealthCheck := {
  path : option string;
  healthyThresholdCount : option Z;
  unhealthyThresholdCount : option Z;
  interval : option Duration;
  timeout : option Duration
}.

Record AddApplicationTargetsProps := {
  targetPort : Z;
  targetProtocol : ApplicationProtocol;
  targets : list ecs.FargateService;
  healthCheck : HealthCheck
}.

Record ApplicationTargetGroup := {
  targetGroupPath : string;
  targetGroupProps : AddApplicationTargetsProps;
  attributes : list (string * string)
}.

(** [listener.addTargets(id, props)]: a target group for the targets; each
    target lets the load balancer in on the port it serves. *)
Definition addTargets (scope : Stack) (l : ApplicationListener)
    (id : string) (props : AddApplicationTargetsProps)
  : Synth ApplicationTargetGroup :=
  forEach (targets props) (fun t =>
    Connections.allowFrom (connectionsOf t) (listenerLoadBalancer l)
      (ec2.Port.tcp (default (targetPort props) (ecs.loadBalancerTargetPort t)))
      "Load balancer to target") ;;
  pure {| targetGroupPath := Stack.path scope id;
          targetGroupProps := props;
          attributes := [] |}.

(** [targetGroup.setAttribute(key, value)] *)
Definition setAttribute (g : ApplicationTargetGroup) (key value : string)
  : ApplicationTargetGroup :=
  {| targetGroupPath := targetGroupPath g;
     targetGroupProps := targetGroupProps g;
     attributes :=
       filter (fun kv => fst kv ≠ key) (attributes g) ++ [(key, value)] |}.
End elbv2.

(** ** AppStack (cdk/lib/appStack.ts) *)

Module appStack.
Record AppStackProps := {
  env : option Environment;
  stage : string;
  appName : string;
  vpc : ec2.Vpc;
  databaseCredentialsSecretArn : string;
  database : rds.DatabaseInstance
}.

(** The public field [ecsLoadBalancer], and the constructor's local
    constants under the names they have in the source. *)
Record AppStack := {
  this : Stack;
  ecsLoadBalancer : elbv2.ApplicationLoadBalancer;
  ecsClusterName : string;
  ecsServiceName : string;
  ecsAlbSecurityGroup : nat;
  ecsServiceSecurityGroup : nat;
  taskRole : iam.Role;
  executionRole : iam.Role;
  taskDefinition : ecs.FargateTaskDefinition;
  ecsCluster : ecs.Cluster;
  ecsServiceArn : string;
  lbListener : elbv2.ApplicationListener;
  secretKeyBaseSecret : secretsManager.Secret;
  releaseCookieSecret : secretsManager.Secret;
  liveBeatsGitHubClientIdSecret : secretsManager.Secret;
  liveBeatsGitHubClientSecretSecret : secretsManager.Secret;
  databaseCredentialsSecret : secretsManager.Secret;
  container : ecs.ContainerDefinition;
  ecsService : ecs.FargateService;
  lbTargetGroup : elbv2.ApplicationTargetGroup
}.

(** The [generateSecretString] the four generated secrets share, up to the
    password length. *)
Definition randomString (n : Z) : secretsManager.SecretStringGenerator :=
  {| secretsManager.secretStringTemplate := None;
     secretsManager.generateStringKey := None;
     secretsManager.excludeLowercase := Some false;
     secretsManager.excludeNumbers := Some false;
     secretsManager.excludeUppercase := Some false;
     secretsManager.excludePunctuation := Some true;
     secretsManager.includeSpace := Some false;
     secretsManager.passwordLength := Some n |}.

Definition new (pv : Provider) (id : string) (props : AppStackProps)
  : Synth AppStack :=
  let this := {| stackId := id; stackEnv := env props |} in
  let prefix := stage props +:+ "-" +:+ appName props in
  let relativeAppPath := "../app" in
  let ecsClusterName := appName props +:+ "-ecs-cluster" in
  let ecsServiceName := appName props +:+ "-ecs-service" in

  (* security group (ECS service's load balancer) *)
  let* ecsAlbSecurityGroup :=
    SecurityGroup.new this (prefix +:+ "-ecs-alb-security-group")
      {| ec2.sgVpc := vpc props;
         ec2.description := "Control access to the ECS load balancer";
         ec2.allowAllOutbound := None |} in
  SecurityGroup.addIngressRule ecsAlbSecurityGroup
    ec2.Peer.anyIpv4 (ec2.Port.tcp 80)
    "Allow HTTP traffic from anywhere" ;;

  (* security group (ECS service) *)
  let* ecsServiceSecurityGroup :=
    SecurityGroup.new this (prefix +:+ "-ecs-service-security-group")
      {| ec2.sgVpc := vpc props;
         ec2.description := "Control access to the ECS service";
         ec2.allowAllOutbound := None |} in
  Connections.allowFrom (SecurityGroup.connections ecsServiceSecurityGroup)
    (ec2.Connections.ofSecurityGroups [ecsAlbSecurityGroup])
    (ec2.Port.tcp 4000)
    "Allow TCP traffic on port 4000 from the load balancer" ;;
  Connections.allowFrom (SecurityGroup.connections ecsServiceSecurityGroup)
    (ec2.Peer.ipv4 (ec2.Vpc.vpcCidrBlock (vpc props)))
    ec2.Port.allTcp
    "Allow TCP traffic from other nodes for libcluster" ;;
  Connections.allowTo (SecurityGroup.connections ecsServiceSecurityGroup)
    (database props)
    (ec2.Port.tcp 5432)
    "Allow traffic on port 5432 from the ECS service to the database" ;;

  (* ECS task IAM role *)
  let taskRole :=
    iam.newRole this (prefix +:+ "-ecs-task-role") "ecs-tasks.amazonaws.com" in
  let taskRole :=
    iam.addToPrincipalPolicy taskRole
      {| iam.actions :=
           ["ssmmessages:CreateControlChannel";
            "ssmmessages:CreateDataChannel";
            "ssmmessages:OpenControlChannel";
            "ssmmessages:OpenDataChannel"];
         iam.resources := ["*"] |} in
  let taskRole :=
    iam.addToPrincipalPolicy taskRole
      {| iam.actions :=
           ["ecs:ListServices"; "ecs:ListTasks"; "ecs:DescribeTasks"];
         iam.resources := ["*"] |} in
  let taskRole :=
    iam.addToPrincipalPolicy taskRole
      {| iam.actions :=
           ["logs:CreateLogGroup"; "logs:CreateLogStream";
            "logs:DescribeLogStreams"; "logs:PutRetentionPolicy";
            "logs:PutLogEvents"];
         iam.resources := ["arn:aws:logs:*:*:log-group:/*"] |} in

  (* ECS execution IAM role *)
  let executionRole :=
    iam.newRole this (prefix +:+ "-ecs-execution-role")
      "ecs-tasks.amazonaws.com" in
  let executionRole :=
    iam.addToPrincipalPolicy executionRole
      {| iam.actions :=
           ["ecr:GetAuthorizationToken"; "ecr:BatchCheckLayerAvailability";
            "ecr:GetDownloadUrlForLayer"; "ecr:BatchGetImage";
            "logs:CreateLogStream"; "logs:PutLogEvents"];
         iam.resources := ["*"] |} in
  let executionRole :=
    iam.addToPrincipalPolicy executionRole
      {| iam.actions :=
           ["ssm:GetParameters"; "secretsmanager:GetSecretValue";
            "kms:Decrypt"];
         iam.resources := ["*"] |} in

  (* task definition *)
  let taskDefinition :=
    {| ecs.taskDefinitionPath :=
         Stack.path this (prefix +:+ "-ecs-task-definition");
       ecs.cpu := 256;
       ecs.memoryLimitMiB := 512;
       ecs.taskRole := taskRole;
       ecs.executionRole := executionRole;
       ecs.containers := [] |} in

  let ecsCluster :=
    {| ecs.clusterPath := Stack.path this (prefix +:+ "-ecs-cluster");
       ecs.clusterName := Some ecsClusterName;
       ecs.clusterVpc := vpc props |} in

  let* ecsServiceArn :=
    liftResult
      (Arn.format pv
         {| arnPartition := None;
            service := "ecs";
            arnRegion := None;
            arnAccount := None;
            resource := "service";
            sep := None;
            resourceName := Some (ecsClusterName +:+ "/" +:+ ecsServiceName) |}
         this) in

  (* load balancer, created here so that its hostname can be PHX_HOST *)
  let ecsLoadBalancer :=
    elbv2.newApplicationLoadBalancer pv this (prefix +:+ "-ecs-lb")
      {| elbv2.loadBalancerName := Some (prefix +:+ "-ecs-lb");
         elbv2.vpc := vpc props;
         elbv2.internetFacing := true;
         elbv2.securityGroup := ecsAlbSecurityGroup |} in
  let* lbListener :=
    elbv2.addListener this ecsLoadBalancer
      (prefix +:+ "-ecs-load-balancer-listener") 80 in

  newCfnOutput this "Load balancer DNS name"
    (elbv2.loadBalancerDnsName ecsLoadBalancer) ;;

  (* app secrets *)
  let secretKeyBaseSecret :=
    secretsManager.newSecret pv this (prefix +:+ "-secret-key-base-secret")
      "Phoenix needs a secret key" (randomString 64) in
  let releaseCookieSecret :=
    secretsManager.newSecret pv this (prefix +:+ "-release-cookie-secret")
      "Nodes need to share a secret cookie to cluster" (randomString 64) in
  let liveBeatsGitHubClientIdSecret :=
    secretsManager.newSecret pv this
      (prefix +:+ "-live-beats-github-client-id-secret")
      "GitHub OAuth Client ID (the Live Beats app uses GitHub OAuth for authentication)"
      (randomString 32) in
  newCfnOutput this "GitHub OAuth Client ID ARN"
    (secretsManager.secretArn liveBeatsGitHubClientIdSecret) ;;
  let liveBeatsGitHubClientSecretSecret :=
    secretsManager.newSecret pv this
      (prefix +:+ "-live-beats-github-client-secret-secret")
      "GitHub OAuth Client secret (the Live Beats app uses GitHub OAuth for authentication)"
      (randomString 32) in
  newCfnOutput this "GitHub OAuth Client secret ARN"
    (secretsManager.secretArn liveBeatsGitHubClientSecretSecret) ;;

  (* database credentials: created in the database stack, fetched by ARN *)
  let databaseCredentialsSecret :=
    secretsManager.fromSecretCompleteArn this
      (prefix +:+ "-live-beats-imported-database-credentials-secret")
      (databaseCredentialsSecretArn props) in

  (* container *)
  let '(container, taskDefinition) :=
    ecs.addContainer this taskDefinition (prefix +:+ "-ecs-container")
      {| ecs.image := relativeAppPath;
         ecs.portMappings :=
           [ {| ecs.portMappingName := prefix +:+ "-port-4000-tcp";
                ecs.containerPort := 4000;
                ecs.protocol := ecs.TCP;
                ecs.appProtocol := ecs.http |} ];
         ecs.logging :=
           {| ecs.streamPrefix := "/ecs/" +:+ prefix +:+ "-ecs-app";
              ecs.logRetention := 30 |};
         ecs.environment :=
           [ ("PHX_HOST", elbv2.loadBalancerDnsName ecsLoadBalancer);
             ("POOL_SIZE", "2");
             ("AWS_ECS_CLUSTER_REGION", default "" (env props ≫= region));
             ("AWS_ECS_CLUSTER_NAME", ecsClusterName);
             ("AWS_ECS_SERVICE_ARN", ecsServiceArn);
             ("DB_NAME", "postgres") ];
         ecs.secrets :=
           [ ("DB_USERNAME",
              ecs.Secret.fromSecretsManager databaseCredentialsSecret
                (Some "username"));
             ("DB_PASSWORD",
              ecs.Secret.fromSecretsManager databaseCredentialsSecret
                (Some "password"));
             ("DB_HOST",
              ecs.Secret.fromSecretsManager databaseCredentialsSecret
                (Some "host"));
             ("DB_PORT",
              ecs.Secret.fromSecretsManager databaseCredentialsSecret
                (Some "port"));
             ("SECRET_KEY_BASE",
              ecs.Secret.fromSecretsManager secretKeyBaseSecret None);
             ("RELEASE_COOKIE",
              ecs.Secret.fromSecretsManager releaseCookieSecret None);
             ("LIVE_BEATS_GITHUB_CLIENT_ID",
              ecs.Secret.fromSecretsManager liveBeatsGitHubClientIdSecret None);
             ("LIVE_BEATS_GITHUB_CLIENT_SECRET",
              ecs.Secret.fromSecretsManager
                liveBeatsGitHubClientSecretSecret None) ] |} in

  (* service *)
  let ecsService :=
    ecs.newFargateService this (prefix +:+ "-ecs-service")
      {| ecs.serviceName := Some ecsServiceName;
         ecs.cluster := ecsCluster;
         ecs.taskDefinition := taskDefinition;
         ecs.desiredCount := Some 0;
         ecs.securityGroups := [ecsServiceSecurityGroup];
         ecs.assignPublicIp := Some true;
         ecs.circuitBreaker := Some {| ecs.rollback := true |};
         ecs.minHealthyPercent := Some 50;
         ecs.maxHealthyPercent := Some 500;
         ecs.enableExecuteCommand := Some true;
         ecs.vpcSubnets := Some {| ec2.selectSubnetType := ec2.PUBLIC |} |} in

  (* the service becomes a target of the load balancer *)
  let* lbTargetGroup :=
    elbv2.addTargets this lbListener
      (prefix +:+ "-ecs-load-balancer-target-group1")
      {| elbv2.targetPort := 4000;
         elbv2.targetProtocol := elbv2.HTTP;
         elbv2.targets := [ecsService];
         elbv2.healthCheck :=
           {| elbv2.path := Some "/signin";
              elbv2.healthyThresholdCount := Some 2;
              elbv2.unhealthyThresholdCount := Some 2;
              elbv2.interval := Some (Duration.seconds 5);
              elbv2.timeout := Some (Duration.seconds 3) |} |} in
  let lbTargetGroup :=
    elbv2.setAttribute lbTargetGroup
      "deregistration_delay.timeout_seconds" "10" in

  pure {| this := this;
          ecsLoadBalancer := ecsLoadBalancer;
          ecsClusterName := ecsClusterName;
          ecsServiceName := ecsServiceName;
          ecsAlbSecurityGroup := ecsAlbSecurityGroup;
          ecsServiceSecurityGroup := ecsServiceSecurityGroup;
          taskRole := taskRole;
          executionRole := executionRole;
          taskDefinition := taskDefinition;
          ecsCluster := ecsCluster;
          ecsServiceArn := ecsServiceArn;
          lbListener := lbListener;
          secretKeyBaseSecret := secretKeyBaseSecret;
          releaseCookieSecret := releaseCookieSecret;
          liveBeatsGitHubClientIdSecret := liveBeatsGitHubClientIdSecret;
          liveBeatsGitHubClientSecretSecret :=
            liveBeatsGitHubClientSecretSecret;
          databaseCredentialsSecret := databaseCredentialsSecret;
          container := container;
          ecsService := ecsService;
          lbTargetGroup := lbTargetGroup |}.
End appStack.

(** ** RoutingStack (cdk/lib/routingStack.ts), the optional accelerator *)

Module globalaccelerator.
Inductive ClientAffinity := NONE | SOURCE_IP.
Inductive HealthCheckProtocol := TCP | HTTP | HTTPS.

Record PortRange := {
  fromPort : Z;
  toPort : option Z
}.

Record ApplicationLoadBalancerEndpoint := {
  endpointLoadBalancer : elbv2.ApplicationLoadBalancer;
  preserveClientIp : bool;
  weight : Z
}.

Record EndpointGroup := {
  endpointGroupPath : string;
  healthCheckInterval : Duration;
  healthCheckPath : string;
  healthCheckThreshold : Z;
  healthCheckProtocol : HealthCheckProtocol;
  endpoints : list ApplicationLoadBalancerEndpoint
}.

Record Listener := {
  listenerPath : string;
  clientAffinity : ClientAffinity;
  portRanges : list PortRange;
  endpointGroups : list EndpointGroup
}.

Record Accelerator := {
  acceleratorPath : string;
  dnsName : string
}.
End globalaccelerator.

Module routingStack.
Record RoutingStackProps := {
  env : option Environment;
  stage : string;
  appName : string;
  vpc : ec2.Vpc;
  ecsLoadBalancer : elbv2.ApplicationLoadBalancer
}.

Record RoutingStack := {
  this : Stack;
  accelerator : globalaccelerator.Accelerator;
  acceleratorListener : globalaccelerator.Listener
}.

Definition new (pv : Provider) (id : string) (props : RoutingStackProps)
  : Synth RoutingStack :=
  let this := {| stackId := id; stackEnv := env props |} in
  let prefix := stage props +:+ "-" +:+ appName props in
  let accelerator :=
    {| globalaccelerator.acceleratorPath :=
         Stack.path this (prefix +:+ "-accelerator");
       globalaccelerator.dnsName :=
         acceleratorDnsNameOf pv (Stack.path this (prefix +:+ "-accelerator")) |} in
  let endpointGroup :=
    {| globalaccelerator.endpointGroupPath :=
         Stack.path this (prefix +:+ "-accelerator-listener-group1");
       globalaccelerator.healthCheckInterval := Duration.seconds 5;
       globalaccelerator.healthCheckPath := "/signin";
       globalaccelerator.healthCheckThreshold := 1;
       globalaccelerator.healthCheckProtocol := globalaccelerator.HTTP;
       globalaccelerator.endpoints :=
         [ {| globalaccelerator.endpointLoadBalancer := ecsLoadBalancer props;
              globalaccelerator.preserveClientIp := true;
              globalaccelerator.weight := 128 |} ] |} in
  let acceleratorListener :=
    {| globalaccelerator.listenerPath :=
         Stack.path this (prefix +:+ "-accelerator-listener");
       globalaccelerator.clientAffinity := globalaccelerator.SOURCE_IP;
       globalaccelerator.portRanges :=
         [ {| globalaccelerator.fromPort := 80;
              globalaccelerator.toPort := None |} ];
       globalaccelerator.endpointGroups := [endpointGroup] |} in
  newCfnOutput this "Accelerator hostname"
    (globalaccelerator.dnsName accelerator) ;;
  pure {| this := this;
          accelerator := accelerator;
          acceleratorListener := acceleratorListener |}.
End routingStack.

(** ** The program (cdk/bin/live-beats-aws.ts) *)

Module bin.
Record ProcessEnv := {
  CDK_DEFAULT_ACCOUNT : option string;
  CDK_DEFAULT_REGION : option string
}.

Definition envPrimaryRegion (process : ProcessEnv) : Environment :=
  {| account := CDK_DEFAULT_ACCOUNT process;
     region := CDK_DEFAULT_REGION process |}.

Definition stage : string := "staging".
Definition appName : string := "live-beats".

Record Stacks := {
  foundationStack : foundationStack.FoundationStack;
  databaseStack : databaseStack.DatabaseStack;
  appStack : appStack.AppStack
}.

(** The first two stacks of the script, for a given stage label and
    application name. *)
Definition dataTier (pv : Provider) (process : ProcessEnv)
    (stage appName : string)
  : Synth (foundationStack.FoundationStack * databaseStack.DatabaseStack) :=
  let* foundationStack :=
    foundationStack.new "foundation-stack"
      {| foundationStack.env := Some (envPrimaryRegion process);
         foundationStack.stage := stage;
         foundationStack.appName := appName |} in
  let* databaseStack :=
    databaseStack.new pv "database-stack"
      {| databaseStack.env := Some (envPrimaryRegion process);
         databaseStack.stage := stage;
         databaseStack.appName := appName;
         databaseStack.vpc := foundationStack.vpc foundationStack |} in
  pure (foundationStack, databaseStack).

(** The whole script: the three stacks in the order they are written. *)
Definition deploy (pv : Provider) (process : ProcessEnv)
    (stage appName : string) : Synth Stacks :=
  let* (foundationStack, databaseStack) :=
    dataTier pv process stage appName in
  let* appStack :=
    appStack.new pv "app-stack"
      {| appStack.env := Some (envPrimaryRegion process);
         appStack.stage := stage;
         appStack.appName := appName;
         appStack.vpc := foundationStack.vpc foundationStack;
         appStack.databaseCredentialsSecretArn :=
           databaseStack.databaseCredentialsSecretArn databaseStack;
         appStack.database := databaseStack.database databaseStack |} in
  pure {| foundationStack := foundationStack;
          databaseStack := databaseStack;
          appStack := appStack |}.

(** [const app = new cdk.App()] and the script run with the stage and the
    name it is written with. *)
Definition main (pv : Provider) (process : ProcessEnv)
  : Error + (Stacks * App) :=
  deploy pv process stage appName emptyApp.
End bin.

(** ** What a security group lets through

    A packet's other end is an address together with the security groups
    its network interface belongs to. *)

Record Endpoint := {
  address : Z;
  memberOf : list nat
}.

Definition peerMatches (p : ec2.Peer) (e : Endpoint) : bool :=
  match p with
  | ec2.CidrIPv4 c =>
      match Cidr.parse c with
      | Some block => Cidr.contains block (address e)
      | None => false
      end
  | ec2.SecurityGroupPeer g => bool_decide (g ∈ memberOf e)
  end.

Definition ruleAdmits (proto : ec2.Protocol) (p : Z) (e : Endpoint)
    (r : ec2.Rule) : bool :=
  ec2.Port.covers (ec2.connection r) proto p && peerMatches (ec2.peer r) e.

Definition admitsInbound (g : ec2.SecurityGroup) (proto : ec2.Protocol)
    (p : Z) (source : Endpoint) : bool :=
  existsb (ruleAdmits proto p source) (ec2.ingressRules g).

Definition admitsOutbound (g : ec2.SecurityGroup) (proto : ec2.Protocol)
    (p : Z) (destination : Endpoint) : bool :=
  ec2.allowsAllOutbound g
  || existsb (ruleAdmits proto p destination) (ec2.egressRules g).

(** ** Letter case of host names *)

Definition lowerAscii (c : ascii) : ascii :=
  let n := nat_of_ascii c in
  if (Nat.leb 65 n && Nat.leb n 90)%nat then ascii_of_nat (n + 32) else c.

Fixpoint toLowerCase (s : string) : string :=
  match s with
  | EmptyString => EmptyString
  | String c rest => String (lowerAscii c) (toLowerCase rest)
  end.

(** Lookup in an object literal kept as a list of fields. *)
Fixpoint property {A} (key : string) (o : list (string * A)) : option A :=
  match o with
  | [] => None
  | (k, v) :: rest => if String.eqb k key then Some v else property key rest
  end.

(** * Vocabulary of the properties *)

(** [deploys pv process stage appName stacks app]: the script, run with
    the given stage and name against an empty tree, returns the three stacks
    [stacks] and leaves the tree [app]. *)
Definition deploys (pv : Provider) (process : bin.ProcessEnv)
    (stage appName : string) (stacks : bin.Stacks) (app : App) : Prop :=
  bin.deploy pv process stage appName emptyApp = inr (stacks, app).

(** What [f] sees of the outcome of a run, if the run returned. *)
Definition observed {R A} (outcome : Error + (R * App)) (f : R -> App -> A)
  : option A :=
  match outcome with
  | inr (r, app) => Some (f r app)
  | inl _ => None
  end.

Definition rule (p : ec2.Peer) (c : ec2.Port) (d : string) : ec2.Rule :=
  {| ec2.peer := p; ec2.connection := c; ec2.ruleDescription := d |}.

(** The rules of a group, and whether it allows all outbound traffic. *)
Definition rulesOf (g : ec2.SecurityGroup)
  : list ec2.Rule * list ec2.Rule * bool :=
  (ec2.ingressRules g, ec2.egressRules g, ec2.allowsAllOutbound g).

(** Is the address inside the block of the network? *)
Definition inNetworkBlock (v : ec2.Vpc) (a : Z) : bool :=
  match Cidr.parse (ec2.Vpc.vpcCidrBlock v) with
  | Some block => Cidr.contains block a
  | None => false
  end.

(** The environment of the one container of the application stack, and the
    secrets bound into it. *)
Definition containerEnvironment (stacks : bin.Stacks)
  : list (string * string) :=
  ecs.environment
    (ecs.containerOptions (appStack.container (bin.appStack stacks))).

Definition containerSecrets (stacks : bin.Stacks)
  : list (string * ecs.Secret) :=
  ecs.secrets
    (ecs.containerOptions (appStack.container (bin.appStack stacks))).

(** The secrets bound into the task definition the service runs: those of
    every container of that task definition. *)
Definition taskSecrets (stacks : bin.Stacks) : list (string * ecs.Secret) :=
  flat_map (fun c => ecs.secrets (ecs.containerOptions c))
    (ecs.containers
       (ecs.taskDefinition
          (ecs.serviceProps (appStack.ecsService (bin.appStack stacks))))).

(** The bindings that read one field of a secret's JSON document. *)
Definition fieldBindings (bound : list (string * ecs.Secret))
  : list (string * ecs.Secret) :=
  List.filter
    (fun kv => match ecs.field (snd kv) with Some _ => true | None => false end)
    bound.

(** The identifier an ECS service gets, in the format the comment above
    [ecsServiceArn] in the source spells out
    (arn:aws:ecs:eu-west-2:1234567:service/live-beats-cluster/live-beats-service). *)
Definition documentedServiceArn
    (partition region account cluster service : string) : string :=
  "arn:" +:+ partition +:+ ":ecs:" +:+ region +:+ ":" +:+ account
  +:+ ":service/" +:+ cluster +:+ "/" +:+ service.

(** What the application stack hands to [formatArn] for a service of the
    given cluster: the four parts of the identifier's template, the resource
    type service, the service ecs, the cluster's name and the service's
    name. *)
Definition serviceArnComponents (cluster name : string) : ArnComponents :=
  {| arnPartition := None;
     service := "ecs";
     arnRegion := None;
     arnAccount := None;
     resource := "service";
     sep := None;
     resourceName := Some (cluster +:+ "/" +:+ name) |}.

(** An engine that names services in the documented format; the stack's
    partition, region and account are those it is deployed to. *)
Definition followsDocumentedFormat
    (assigned : Provider -> Stack -> ecs.FargateService -> string) : Prop :=
  forall pv scope svc cluster name,
    ecs.clusterName (ecs.cluster (ecs.serviceProps svc)) = Some cluster ->
    ecs.serviceName (ecs.serviceProps svc) = Some name ->
    assigned pv scope svc =
    documentedServiceArn (Stack.partition pv scope) (Stack.region pv scope)
      (Stack.account pv scope) cluster name.

(** ** The provider, the shell environment and the engine of the examples *)

Definition exampleProvider : Provider :=
  {| partitionName := "aws";
     accountId := "1234567";
     regionName := "eu-west-2";
     dnsNameOf := fun _ => "DEMO-ABC123.example-region.provider.net";
     secretArnOf := fun path =>
       "arn:aws:secretsmanager:eu-west-2:1234567:secret:" +:+ path;
     acceleratorDnsNameOf := fun _ =>
       "a1234567890abcdef.awsglobalaccelerator.com" |}.

Definition exampleProcess : bin.ProcessEnv :=
  {| bin.CDK_DEFAULT_ACCOUNT := Some "1234567";
     bin.CDK_DEFAULT_REGION := Some "eu-west-2" |}.

Definition exampleEngine (pv : Provider) (scope : Stack)
    (svc : ecs.FargateService) : string :=
  documentedServiceArn (Stack.partition pv scope) (Stack.region pv scope)
    (Stack.account pv scope)
    (default "" (ecs.clusterName (ecs.cluster (ecs.serviceProps svc))))
    (default "" (ecs.serviceName (ecs.serviceProps svc))).

(** ** Vocabulary of the further properties *)

(** [returns c app x app']: run against the tree [app], the constructor [c]
    returns [x] and leaves the tree [app']. *)
Definition returns {A} (c : Synth A) (app : App) (x : A) (app' : App) : Prop :=
  c app = inr (x, app').

(** A group once an ingress rule for the peer and the ports has been asked
    for: what [addIngressRule] does to it. *)
Definition withIngress (p : ec2.Peer) (c : ec2.Port) (d : string)
    (sg : ec2.SecurityGroup) : ec2.SecurityGroup :=
  if existsb (SecurityGroup.sameRule p c) (ec2.ingressRules sg) then sg
  else {| ec2.sgPath := ec2.sgPath sg; ec2.sgProps := ec2.sgProps sg;
          ec2.ingressRules := ec2.ingressRules sg ++ [rule p c d];
          ec2.egressRules := ec2.egressRules sg |}.

(** The store once the rule has been asked for on each of the groups [gs],
    one after the other. *)
Definition withIngressAt (gs : list nat) (p : ec2.Peer) (c : ec2.Port)
    (d : string) (l : list ec2.SecurityGroup) : list ec2.SecurityGroup :=
  foldl (fun l g => alter (withIngress p c d) g l) l gs.

(** A tree that some other stack has been built in already: it holds the
    security group of a bastion host and one output. *)
Definition exampleTree : App :=
  {| groups :=
       [ {| ec2.sgPath := "bastion-stack/bastion-security-group";
            ec2.sgProps :=
              {| ec2.sgVpc :=
                   {| ec2.vpcId := "bastion-stack/bastion-vpc";
                      ec2.vpcProps :=
                        {| ec2.ipAddresses := "10.1.0.0/24";
                           ec2.natGateways := 0;
                           ec2.maxAzs := 1;
                           ec2.subnetConfiguration := [] |} |};
                 ec2.description := "Control access to the bastion host";
                 ec2.allowAllOutbound := None |};
            ec2.ingressRules :=
              [rule (ec2.Peer.ipv4 "192.0.2.0/24") (ec2.Port.tcp 22)
                 "Allow SSH from the office"];
            ec2.egressRules := [] |} ];
     outputs :=
       [ {| outputStack := "bastion-stack";
            outputId := "Bastion address";
            outputValue := "192.0.2.10" |} ] |}.

(** The properties the script hands the application stack. *)
Definition scriptAppStackProps (process : bin.ProcessEnv)
    (stage appName : string) (f : foundationStack.FoundationStack)
    (d : databaseStack.DatabaseStack) : appStack.AppStackProps :=
  {| appStack.env := Some (bin.envPrimaryRegion process);
     appStack.stage := stage;
     appStack.appName := appName;
     appStack.vpc := foundationStack.vpc f;
     appStack.databaseCredentialsSecretArn :=
       databaseStack.databaseCredentialsSecretArn d;
     appStack.database := databaseStack.database d |}.

(** Every action the statements added to a role allow. *)
Definition actionsOf (r : iam.Role) : list string :=
  flat_map iam.actions (iam.policy r).

(** Is some action of the role in the given service's name space? *)
Definition actsOn (service : string) (r : iam.Role) : bool :=
  existsb (String.prefix (service +:+ ":")) (actionsOf r).

(** The paths of the constructs the application stack creates, security
    groups first. *)
Definition constructPaths (app : App) (a : appStack.AppStack) : list string :=
  omap (fun g => ec2.sgPath <$> groups app !! g)
       [appStack.ecsAlbSecurityGroup a; appStack.ecsServiceSecurityGroup a]
  ++ [ iam.rolePath (appStack.taskRole a);
       iam.rolePath (appStack.executionRole a);
       ecs.taskDefinitionPath (appStack.taskDefinition a);
       ecs.clusterPath (appStack.ecsCluster a);
       elbv2.loadBalancerPath (appStack.ecsLoadBalancer a);
       elbv2.listenerPath (appStack.lbListener a);
       secretsManager.secretPath (appStack.secretKeyBaseSecret a);
       secretsManager.secretPath (appStack.releaseCookieSecret a);
       secretsManager.secretPath (appStack.liveBeatsGitHubClientIdSecret a);
       secretsManager.secretPath (appStack.liveBeatsGitHubClientSecretSecret a);
       secretsManager.secretPath (appStack.databaseCredentialsSecret a);
       ecs.containerPath (appStack.container a);
       ecs.servicePath (appStack.ecsService a);
       elbv2.targetGroupPath (appStack.lbTargetGroup a) ]
  ++ map (fun o => outputStack o +:+ "/" +:+ outputId o) (outputs app).

(** The ids those paths end in, after <stage>-<appName>. *)
Definition constructSuffixes : list string :=
  [ "-ecs-alb-security-group"; "-ecs-service-security-group";
    "-ecs-task-role"; "-ecs-execution-role"; "-ecs-task-definition";
    "-ecs-cluster"; "-ecs-lb"; "-ecs-load-balancer-listener";
    "-secret-key-base-secret"; "-release-cookie-secret";
    "-live-beats-github-client-id-secret";
    "-live-beats-github-client-secret-secret";
    "-live-beats-imported-database-credentials-secret";
    "-ecs-container"; "-ecs-service"; "-ecs-load-balancer-target-group1" ].

(** The ids of the three outputs of the application stack. *)
Definition outputIds : list string :=
  [ "Load balancer DNS name"; "GitHub OAuth Client ID ARN";
    "GitHub OAuth Client secret ARN" ].

(** Does the string end with the given ending? *)
Fixpoint endsWith (ending s : string) : bool :=
  String.eqb ending s
  || match s with
     | EmptyString => false
     | String _ rest => endsWith ending rest
     end.

(** The bindings that hand a secret over whole. *)
Definition wholeBindings (bound : list (string * ecs.Secret))
  : list (string * ecs.Secret) :=
  List.filter
    (fun kv => match ecs.field (snd kv) with Some _ => false | None => true end)
    bound.

(** The addresses a block with the given mask holds. *)
Definition blockSize (mask : Z) : Z := 2 ^ (32 - mask).

(** The addresses the subnets of a network take together: one subnet of
    every configured group in every availability zone. *)
Definition subnetAddresses (v : ec2.Vpc) : Z :=
  ec2.maxAzs (ec2.vpcProps v)
  * fold_right Z.add 0
      (map (fun c => blockSize (ec2.cidrMask c))
           (ec2.subnetConfiguration (ec2.vpcProps v))).

(** * Evaluating the script *)

Lemma observed_run {R A} (outcome : Error + (R * App)) r app
    (f : R -> App -> A) (v : A) :
  outcome = inr (r, app) -> observed outcome f = Some v -> f r app = v.
Proof.
  intros ->. simpl. intros H. injection H as ->. reflexivity.
Qed.

Lemma observed_runs {R1 R2 A} (c1 : Error + (R1 * App))
    (c2 : Error + (R2 * App)) r1 a1 r2 a2
    (f : R1 -> App -> A) (g : R2 -> App -> A) :
  c1 = inr (r1, a1) -> c2 = inr (r2, a2) ->
  observed c1 f = observed c2 g -> f r1 a1 = g r2 a2.
Proof.
  intros -> ->. simpl. intros H. injection H as ->. reflexivity.
Qed.

(** Settle an equation about the result of a run by evaluating the run and
    looking only at the part the equation is about. *)
Ltac observe Hrun :=
  cbv beta delta [deploys] in Hrun;
  lazymatch type of Hrun with
  | ?c = inr (?r, ?a) =>
      lazymatch goal with
      | |- ?L = ?R =>
          let g := eval pattern r, a in L in
          lazymatch g with
          | ?f r a =>
              apply (observed_run c r a f R Hrun); vm_compute; reflexivity
          end
      end
  end.

(** The same for an equation between the results of two runs, or between
    two parts of the result of one. *)
Ltac observe_both H1 H2 :=
  cbv beta delta [deploys] in H1, H2;
  lazymatch type of H1 with
  | ?c1 = inr (?r1, ?a1) =>
      lazymatch type of H2 with
      | ?c2 = inr (?r2, ?a2) =>
          lazymatch goal with
          | |- ?L = ?R =>
              let f := eval pattern r1, a1 in L in
              let g := eval pattern r2, a2 in R in
              lazymatch f with
              | ?f' r1 a1 =>
                  lazymatch g with
                  | ?g' r2 a2 =>
                      apply (observed_runs c1 c2 r1 a1 r2 a2 f' g' H1 H2);
                      vm_compute; reflexivity
                  end
              end
          end
      end
  end.

(** The script returns. *)
Lemma deploy_returns pv process stage appName :
  exists stacks app, deploys pv process stage appName stacks app.
Proof.
  unfold deploys. eexists _, _. vm_compute. reflexivity.
Qed.

(** So do its first two stacks. *)
Lemma dataTier_returns pv process stage appName :
  exists f d app0,
    bin.dataTier pv process stage appName emptyApp = inr ((f, d), app0).
Proof.
  eexists _, _, _. vm_compute. reflexivity.
Qed.

(** The accelerator stack returns too, and touches no security group. *)
Lemma routing_stack_keeps_groups pv id props app :
  exists r app',
    routingStack.new pv id props app = inr (r, app') /\
    groups app' = groups app.
Proof.
  eexists _, _. split; reflexivity.
Qed.

(** * The security groups after the script has run *)

Section Deployed.
Variables (pv : Provider) (process : bin.ProcessEnv).
Variables (stage appName : string).
Variables (stacks : bin.Stacks) (app : App).
Hypothesis Hrun : deploys pv process stage appName stacks app.

(** The groups are created in the order database, load balancer, service. *)
Lemma group_references :
  databaseStack.databaseSecurityGroup (bin.databaseStack stacks) = 0%nat /\
  appStack.ecsAlbSecurityGroup (bin.appStack stacks) = 1%nat /\
  appStack.ecsServiceSecurityGroup (bin.appStack stacks) = 2%nat.
Proof.
  repeat split; observe Hrun.
Qed.

Lemma network_block :
  ec2.Vpc.vpcCidrBlock (foundationStack.vpc (bin.foundationStack stacks))
  = "10.0.0.0/21".
Proof. observe Hrun. Qed.

Lemma group_with_rules (ref : nat) ingress egress all :
  rulesOf <$> (groups app !! ref) = Some (ingress, egress, all) ->
  exists g,
    groups app !! ref = Some g /\
    ec2.ingressRules g = ingress /\ ec2.egressRules g = egress /\
    ec2.allowsAllOutbound g = all.
Proof.
  destruct (groups app !! ref) as [g|]; simpl; [|discriminate].
  unfold rulesOf. intros H. injection H as <- <- <-.
  exists g. repeat split.
Qed.

(** The database's group ends up with one ingress rule, from the service's
    group on the database port. *)
Lemma database_group_rules :
  exists db,
    groups app !! databaseStack.databaseSecurityGroup (bin.databaseStack stacks)
      = Some db /\
    ec2.ingressRules db =
      [rule (ec2.SecurityGroupPeer
               (appStack.ecsServiceSecurityGroup (bin.appStack stacks)))
         (ec2.Port.tcp 5432)
         "Allow traffic on port 5432 from the ECS service to the database"] /\
    ec2.egressRules db = [] /\ ec2.allowsAllOutbound db = true.
Proof.
  destruct group_references as (_ & _ & ->).
  apply group_with_rules. observe Hrun.
Qed.

(** The service's group has two ingress rules and records no egress rule. *)
Lemma service_group_rules :
  exists svc,
    groups app !! appStack.ecsServiceSecurityGroup (bin.appStack stacks)
      = Some svc /\
    ec2.ingressRules svc =
      [rule (ec2.SecurityGroupPeer
               (appStack.ecsAlbSecurityGroup (bin.appStack stacks)))
         (ec2.Port.tcp 4000)
         "Allow TCP traffic on port 4000 from the load balancer";
       rule (ec2.Peer.ipv4
               (ec2.Vpc.vpcCidrBlock
                  (foundationStack.vpc (bin.foundationStack stacks))))
         ec2.Port.allTcp
         "Allow TCP traffic from other nodes for libcluster"] /\
    ec2.egressRules svc = [] /\ ec2.allowsAllOutbound svc = true.
Proof.
  destruct group_references as (_ & -> & _). rewrite network_block.
  apply group_with_rules. observe Hrun.
Qed.
End Deployed.

(** The block 10.0.0.0/21 holds the addresses 10.0.0.0 to 10.0.7.255. *)
Lemma network_block_parse :
  Cidr.parse "10.0.0.0/21" = Some (167772160, 21).
Proof. vm_compute. reflexivity. Qed.

Lemma network_block_range a :
  Cidr.contains (167772160, 21) a = true <->
  167772160 <= a < 167774208.
Proof.
  unfold Cidr.contains. rewrite Z.eqb_eq.
  change (32 - 21) with 11.
  rewrite !Z.shiftr_div_pow2 by lia.
  change (167772160 / 2 ^ 11) with 81920. change (2 ^ 11) with 2048.
  split; intros H.
  - pose proof (Z.mul_div_le a 2048 ltac:(lia)).
    pose proof (Z.mul_succ_div_gt a 2048 ltac:(lia)). lia.
  - symmetry. apply Z.div_unique with (r := a - 2048 * 81920); lia.
Qed.

Lemma network_block_addresses pv process stage appName stacks app :
  deploys pv process stage appName stacks app ->
  forall a,
    inNetworkBlock (foundationStack.vpc (bin.foundationStack stacks)) a = true
    <-> 167772160 <= a < 167774208.
Proof.
  intros Hrun a. unfold inNetworkBlock.
  rewrite (network_block _ _ _ _ _ _ Hrun), network_block_parse.
  apply network_block_range.
Qed.

Lemma covers_tcp n proto p :
  ec2.Port.covers (ec2.Port.tcp n) proto p =
  bool_decide (proto = ec2.TCP) && (p =? n).
Proof.
  unfold ec2.Port.covers, ec2.Port.tcp; simpl.
  destruct proto; simpl; try reflexivity.
  destruct (Z.eqb_spec p n) as [->|Hne].
  - rewrite !Z.leb_refl. reflexivity.
  - destruct (Z.leb_spec n p), (Z.leb_spec p n); simpl; try reflexivity; lia.
Qed.

Lemma covers_allTcp proto p :
  ec2.Port.covers ec2.Port.allTcp proto p =
  bool_decide (proto = ec2.TCP) && ((0 <=? p) && (p <=? 65535)).
Proof.
  unfold ec2.Port.covers, ec2.Port.allTcp; simpl.
  destruct proto; reflexivity.
Qed.

(** What the two ingress rules of the service's group let in. *)
Lemma service_group_inbound pv process stage appName stacks app svc :
  deploys pv process stage appName stacks app ->
  groups app !! appStack.ecsServiceSecurityGroup (bin.appStack stacks)
    = Some svc ->
  forall proto p source,
    admitsInbound svc proto p source =
    bool_decide (proto = ec2.TCP)
    && ((p =? 4000)
        && bool_decide
             (appStack.ecsAlbSecurityGroup (bin.appStack stacks)
                ∈ memberOf source)
        || (0 <=? p) && (p <=? 65535)
           && inNetworkBlock
                (foundationStack.vpc (bin.foundationStack stacks))
                (address source)).
Proof.
  intros Hrun Hsvc proto p source.
  destruct (service_group_rules _ _ _ _ _ _ Hrun)
    as (svc' & Hsvc' & Hin & _ & _).
  rewrite Hsvc in Hsvc'. injection Hsvc' as <-.
  unfold admitsInbound. rewrite Hin. unfold rule, ruleAdmits; simpl.
  rewrite covers_tcp, covers_allTcp. unfold inNetworkBlock, ec2.Peer.ipv4.
  destruct (bool_decide (proto = ec2.TCP)); simpl; [|reflexivity].
  rewrite orb_false_r. reflexivity.
Qed.

(** The state of the database's group when only the first two stacks have
    been built, and when all three have. *)
Lemma database_group_before_and_after pv process stage appName
    tier app0 stacks app :
  bin.dataTier pv process stage appName emptyApp = inr (tier, app0) ->
  deploys pv process stage appName stacks app ->
  bin.databaseStack stacks = snd tier /\
  exists created final,
    let d := databaseStack.databaseSecurityGroup (bin.databaseStack stacks) in
    let s := appStack.ecsServiceSecurityGroup (bin.appStack stacks) in
    groups app0 !! d = Some created /\
    groups app !! d = Some final /\
    ec2.ingressRules created = [] /\ ec2.egressRules created = [] /\
    final =
      {| ec2.sgPath := ec2.sgPath created;
         ec2.sgProps := ec2.sgProps created;
         ec2.ingressRules :=
           [rule (ec2.SecurityGroupPeer s) (ec2.Port.tcp 5432)
              "Allow traffic on port 5432 from the ECS service to the database"];
         ec2.egressRules := [] |}.
Proof.
  intros Hdata Hrun.
  assert (Hd : bin.databaseStack stacks = snd tier)
    by observe_both Hrun Hdata.
  split; [exact Hd|].
  destruct (database_group_rules _ _ _ _ _ _ Hrun)
    as (final & Hfinal & Hin & Hout & _).
  assert (Hcreated :
            rulesOf <$> (groups app0 !! databaseStack.databaseSecurityGroup
                           (snd tier)) = Some ([], [], true))
    by observe Hdata.
  assert (Hsame :
            (fun g => (ec2.sgPath g, ec2.sgProps g)) <$>
              (groups app !! databaseStack.databaseSecurityGroup
                 (bin.databaseStack stacks)) =
            (fun g => (ec2.sgPath g, ec2.sgProps g)) <$>
              (groups app0 !! databaseStack.databaseSecurityGroup
                 (snd tier)))
    by observe_both Hrun Hdata.
  rewrite <- Hd in Hcreated, Hsame.
  destruct (groups app0 !! _) as [created|] eqn:Hc; [|discriminate Hcreated].
  rewrite Hfinal in Hsame. simpl in Hcreated, Hsame.
  unfold rulesOf in Hcreated.
  injection Hcreated as Hcin Hcout _. injection Hsame as Hpath Hprops.
  exists created, final. cbv zeta.
  split; [exact Hc|]. split; [exact Hfinal|].
  split; [exact Hcin|]. split; [exact Hcout|].
  destruct final; simpl in *. subst. reflexivity.
Qed.

Lemma exampleEngine_follows : followsDocumentedFormat exampleEngine.
Proof.
  intros pv scope svc cluster name Hc Hn. unfold exampleEngine.
  rewrite Hc, Hn. reflexivity.
Qed.

Lemma toLowerCase_app s t :
  toLowerCase (s +:+ t) = toLowerCase s +:+ toLowerCase t.
Proof.
  induction s as [|c s IH]; simpl; [reflexivity|]. rewrite IH. reflexivity.
Qed.

(** The name the application stack gives the load balancer is lowercase
    whenever the stage and the application name are. *)
Lemma load_balancer_name_lowercase stage appName :
  toLowerCase stage = stage -> toLowerCase appName = appName ->
  toLowerCase ((stage +:+ "-" +:+ appName) +:+ "-ecs-lb")
  = (stage +:+ "-" +:+ appName) +:+ "-ecs-lb".
Proof.
  intros Hs Ha. rewrite !toLowerCase_app, Hs, Ha. reflexivity.
Qed.

(** * The claims *)

(** ** C1: the service's ARN, told in advance *)

(** C1.  Whatever the stage and the name, the ARN the application stack
    computes from the cluster's and the service's name, with the four parts
    of the template (resource type service, service ecs, cluster name,
    service name) handed to formatArn, is the value of AWS_ECS_SERVICE_ARN in
    the container of the task definition the service runs, and it is, string
    for string, the identifier the engine assigns to the service: the cluster
    and the service are created with the very names the ARN was built from.
    The same holds of any pair of names: the ARN formatted from a cluster
    name and a service name is the identifier assigned to any service created
    with these two names.  The engine is not part of the code; it is any
    engine that names services in the documented format. *)
Theorem service_arn_predicted
    (assigned : Provider -> Stack -> ecs.FargateService -> string)
    (Hdoc : followsDocumentedFormat assigned)
    pv process stage appName :
  exists stacks app,
    deploys pv process stage appName stacks app /\
    let a := bin.appStack stacks in
    let svc := appStack.ecsService a in
    (appStack.ecsClusterName a = appName +:+ "-ecs-cluster" /\
     appStack.ecsServiceName a = appName +:+ "-ecs-service") /\
    ecs.cluster (ecs.serviceProps svc) = appStack.ecsCluster a /\
    ecs.clusterName (appStack.ecsCluster a)
      = Some (appStack.ecsClusterName a) /\
    ecs.serviceName (ecs.serviceProps svc)
      = Some (appStack.ecsServiceName a) /\
    ecs.containers (ecs.taskDefinition (ecs.serviceProps svc))
      = [appStack.container a] /\
    property "AWS_ECS_SERVICE_ARN" (containerEnvironment stacks)
      = Some (appStack.ecsServiceArn a) /\
    appStack.ecsServiceArn a =
      documentedServiceArn (Stack.partition pv (appStack.this a))
        (Stack.region pv (appStack.this a))
        (Stack.account pv (appStack.this a))
        (appStack.ecsClusterName a) (appStack.ecsServiceName a) /\
    appStack.ecsServiceArn a = assigned pv (appStack.this a) svc /\
    Arn.format pv
      (serviceArnComponents (appStack.ecsClusterName a)
         (appStack.ecsServiceName a))
      (appStack.this a)
      = inr (appStack.ecsServiceArn a) /\
    (forall cluster name created,
       ecs.clusterName (ecs.cluster (ecs.serviceProps created))
         = Some cluster ->
       ecs.serviceName (ecs.serviceProps created) = Some name ->
       Arn.format pv (serviceArnComponents cluster name) (appStack.this a)
       = inr (assigned pv (appStack.this a) created)).
Proof.
  destruct (deploy_returns pv process stage appName) as (stacks & app & Hrun).
  exists stacks, app. cbv zeta. split; [exact Hrun|].
  assert (Hcluster :
            ecs.clusterName
              (ecs.cluster (ecs.serviceProps
                              (appStack.ecsService (bin.appStack stacks))))
            = Some (appStack.ecsClusterName (bin.appStack stacks)))
    by observe_both Hrun Hrun.
  assert (Hname :
            ecs.serviceName
              (ecs.serviceProps (appStack.ecsService (bin.appStack stacks)))
            = Some (appStack.ecsServiceName (bin.appStack stacks)))
    by observe_both Hrun Hrun.
  assert (Harn :
            appStack.ecsServiceArn (bin.appStack stacks) =
            documentedServiceArn
              (Stack.partition pv (appStack.this (bin.appStack stacks)))
              (Stack.region pv (appStack.this (bin.appStack stacks)))
              (Stack.account pv (appStack.this (bin.appStack stacks)))
              (appStack.ecsClusterName (bin.appStack stacks))
              (appStack.ecsServiceName (bin.appStack stacks)))
    by observe_both Hrun Hrun.
  assert (Hformat :
            forall cluster name,
              Arn.format pv (serviceArnComponents cluster name)
                (appStack.this (bin.appStack stacks))
              = inr (documentedServiceArn
                       (Stack.partition pv (appStack.this (bin.appStack stacks)))
                       (Stack.region pv (appStack.this (bin.appStack stacks)))
                       (Stack.account pv (appStack.this (bin.appStack stacks)))
                       cluster name)).
  { intros cluster name. reflexivity. }
  split; [split; observe Hrun|].
  split; [observe_both Hrun Hrun|]. split; [observe_both Hrun Hrun|].
  split; [exact Hname|]. split; [observe_both Hrun Hrun|].
  split; [observe_both Hrun Hrun|]. split; [exact Harn|].
  split; [rewrite (Hdoc _ _ _ _ _ Hcluster Hname); exact Harn|].
  split; [rewrite Hformat, Harn; reflexivity|].
  intros cluster name created Hc Hn.
  rewrite Hformat, (Hdoc _ _ _ _ _ Hc Hn). reflexivity.
Qed.

(** C1 at stage "staging", name "demo", in account 1234567 and region
    eu-west-2. *)
Lemma service_arn_predicted_example :
  followsDocumentedFormat exampleEngine /\
  exists stacks app,
    deploys exampleProvider exampleProcess "staging" "demo" stacks app /\
    let a := bin.appStack stacks in
    property "AWS_ECS_SERVICE_ARN" (containerEnvironment stacks)
      = Some "arn:aws:ecs:eu-west-2:1234567:service/demo-ecs-cluster/demo-ecs-service" /\
    exampleEngine exampleProvider (appStack.this a) (appStack.ecsService a)
      = "arn:aws:ecs:eu-west-2:1234567:service/demo-ecs-cluster/demo-ecs-service".
Proof.
  split; [exact exampleEngine_follows|].
  destruct (service_arn_predicted exampleEngine exampleEngine_follows
              exampleProvider exampleProcess "staging" "demo")
    as (stacks & app & Hrun & _ & _ & _ & _ & _ & Henv & _ & Harn & _).
  exists stacks, app. split; [exact Hrun|]. cbv zeta.
  assert (Hvalue :
            exampleEngine exampleProvider (appStack.this (bin.appStack stacks))
              (appStack.ecsService (bin.appStack stacks))
            = "arn:aws:ecs:eu-west-2:1234567:service/demo-ecs-cluster/demo-ecs-service")
    by observe Hrun.
  split; [|exact Hvalue].
  rewrite Henv, Harn, Hvalue. reflexivity.
Defined.

(** ** C2: the host name handed to the application *)

(** C2, as stated, fails: when the load balancer's generated host name is
    DEMO-ABC123.example-region.provider.net, PHX_HOST carries it as it is,
    capitals included, and not demo-abc123.example-region.provider.net. *)
Lemma host_name_counterexample :
  exists stacks app,
    deploys exampleProvider exampleProcess "staging" "demo" stacks app /\
    let lb := appStack.ecsLoadBalancer (bin.appStack stacks) in
    elbv2.loadBalancerDnsName lb = "DEMO-ABC123.example-region.provider.net" /\
    toLowerCase (elbv2.loadBalancerDnsName lb)
      = "demo-abc123.example-region.provider.net" /\
    property "PHX_HOST" (containerEnvironment stacks)
      = Some "DEMO-ABC123.example-region.provider.net" /\
    property "PHX_HOST" (containerEnvironment stacks)
      <> Some (toLowerCase (elbv2.loadBalancerDnsName lb)).
Proof.
  destruct (deploy_returns exampleProvider exampleProcess "staging" "demo")
    as (stacks & app & Hrun).
  exists stacks, app. split; [exact Hrun|]. cbv zeta.
  assert (Hdns :
            elbv2.loadBalancerDnsName
              (appStack.ecsLoadBalancer (bin.appStack stacks))
            = "DEMO-ABC123.example-region.provider.net") by observe Hrun.
  assert (Henv :
            property "PHX_HOST" (containerEnvironment stacks)
            = Some "DEMO-ABC123.example-region.provider.net")
    by observe Hrun.
  split; [exact Hdns|]. rewrite Hdns, Henv.
  split; [reflexivity|]. split; [reflexivity|]. discriminate.
Qed.

(** C2, amended.  PHX_HOST is the host name the provider generated for the
    load balancer, character for character; nothing lowers its case.  What
    the stack does instead is give the load balancer the name
    <stage>-<appName>-ecs-lb.  The value equals the lowercase form of the
    host name exactly when the host name is lowercase already. *)
Theorem host_name_injected_verbatim pv process stage appName :
  exists stacks app,
    deploys pv process stage appName stacks app /\
    let lb := appStack.ecsLoadBalancer (bin.appStack stacks) in
    let host := elbv2.loadBalancerDnsName lb in
    host = dnsNameOf pv (elbv2.loadBalancerPath lb) /\
    elbv2.loadBalancerName (elbv2.loadBalancerProps lb)
      = Some ((stage +:+ "-" +:+ appName) +:+ "-ecs-lb") /\
    property "PHX_HOST" (containerEnvironment stacks) = Some host /\
    (property "PHX_HOST" (containerEnvironment stacks)
       = Some (toLowerCase host) <-> toLowerCase host = host).
Proof.
  destruct (deploy_returns pv process stage appName) as (stacks & app & Hrun).
  exists stacks, app. split; [exact Hrun|]. cbv zeta.
  assert (Henv :
            property "PHX_HOST" (containerEnvironment stacks)
            = Some (elbv2.loadBalancerDnsName
                      (appStack.ecsLoadBalancer (bin.appStack stacks))))
    by observe_both Hrun Hrun.
  split; [observe_both Hrun Hrun|]. split; [observe Hrun|].
  split; [exact Henv|].
  rewrite Henv. split; intros H.
  - injection H as H. symmetry. exact H.
  - rewrite H. reflexivity.
Qed.

(** ** C3: what the service's security group lets through *)

(** C3, as the specification states it, fails for stage "staging" and name
    "demo" on two counts.  A host at 10.0.4.7, inside the network but in no
    security group at all (so not behind the load balancer's group), is let
    in on TCP 4000; and a destination at 93.184.216.34, which is not the
    database, can be reached on TCP 5432. *)
Lemma service_group_counterexample :
  exists stacks app svc source destination,
    deploys exampleProvider exampleProcess "staging" "demo" stacks app /\
    groups app !! appStack.ecsServiceSecurityGroup (bin.appStack stacks)
      = Some svc /\
    (Cidr.address "10.0.4.7" = Some (address source) /\
     memberOf source = [] /\
     admitsInbound svc ec2.TCP 4000 source = true) /\
    (Cidr.address "93.184.216.34" = Some (address destination) /\
     memberOf destination = [] /\
     admitsOutbound svc ec2.TCP 5432 destination = true).
Proof.
  destruct (deploy_returns exampleProvider exampleProcess "staging" "demo")
    as (stacks & app & Hrun).
  destruct (service_group_rules _ _ _ _ _ _ Hrun)
    as (svc & Hsvc & _ & _ & Hall).
  exists stacks, app, svc,
    {| address := 167773191; memberOf := [] |},
    {| address := 1572395042; memberOf := [] |}.
  split; [exact Hrun|]. split; [exact Hsvc|]. split.
  - split; [vm_compute; reflexivity|]. split; [reflexivity|].
    rewrite (service_group_inbound _ _ _ _ _ _ _ Hrun Hsvc). simpl address.
    rewrite (proj2 (network_block_addresses _ _ _ _ _ _ Hrun 167773191))
      by lia.
    rewrite bool_decide_eq_true_2 by reflexivity. apply orb_true_r.
  - split; [vm_compute; reflexivity|]. split; [reflexivity|].
    unfold admitsOutbound. rewrite Hall. reflexivity.
Qed.

(** C3, amended.  For every stage and name, the service's security group
    lets a packet in exactly when it is TCP and either goes to port 4000
    from a member of the load balancer's security group, or goes to any port
    from an address inside the network's block (10.0.0.0 to 10.0.7.255).  So
    nothing from outside the block gets in except through the load
    balancer's group.  No egress rule is recorded on the group and all
    outbound traffic is allowed, the database's port included. *)
Theorem service_group_admission pv process stage appName :
  exists stacks app svc,
    deploys pv process stage appName stacks app /\
    groups app !! appStack.ecsServiceSecurityGroup (bin.appStack stacks)
      = Some svc /\
    let alb := appStack.ecsAlbSecurityGroup (bin.appStack stacks) in
    let vpc := foundationStack.vpc (bin.foundationStack stacks) in
    ec2.ingressRules svc =
      [rule (ec2.SecurityGroupPeer alb) (ec2.Port.tcp 4000)
         "Allow TCP traffic on port 4000 from the load balancer";
       rule (ec2.Peer.ipv4 (ec2.Vpc.vpcCidrBlock vpc)) ec2.Port.allTcp
         "Allow TCP traffic from other nodes for libcluster"] /\
    (forall proto p source,
       admitsInbound svc proto p source =
       bool_decide (proto = ec2.TCP)
       && ((p =? 4000) && bool_decide (alb ∈ memberOf source)
           || (0 <=? p) && (p <=? 65535)
              && inNetworkBlock vpc (address source))) /\
    ec2.Vpc.vpcCidrBlock vpc = "10.0.0.0/21" /\
    (forall a, inNetworkBlock vpc a = true <-> 167772160 <= a < 167774208) /\
    (forall proto p source,
       alb ∉ memberOf source ->
       inNetworkBlock vpc (address source) = false ->
       admitsInbound svc proto p source = false) /\
    (ec2.egressRules svc = [] /\ ec2.allowsAllOutbound svc = true) /\
    (forall proto p destination,
       admitsOutbound svc proto p destination = true).
Proof.
  destruct (deploy_returns pv process stage appName) as (stacks & app & Hrun).
  destruct (service_group_rules _ _ _ _ _ _ Hrun)
    as (svc & Hsvc & Hrules & Hout & Hall).
  exists stacks, app, svc. cbv zeta.
  pose proof (service_group_inbound _ _ _ _ _ _ _ Hrun Hsvc) as Hin.
  split; [exact Hrun|]. split; [exact Hsvc|]. split; [exact Hrules|].
  split; [exact Hin|]. split; [exact (network_block _ _ _ _ _ _ Hrun)|].
  split; [exact (network_block_addresses _ _ _ _ _ _ Hrun)|].
  split; [|split; [split; assumption|]].
  - intros proto p source Hnot Hout'. rewrite Hin, Hout'.
    rewrite (bool_decide_eq_false_2 _ Hnot).
    rewrite !andb_false_r. reflexivity.
  - intros proto p destination. unfold admitsOutbound. rewrite Hall.
    reflexivity.
Qed.

(** ** C4: the rule for traffic between the replicas *)

(** C4, as stated, fails: for stage "staging" and name "demo" a UDP packet
    to port 4369 and an ICMP packet, both from 10.0.1.5 inside the network's
    block, are not let in, and no rule of the group is for all protocols. *)
Lemma cluster_rule_counterexample :
  exists stacks app svc source,
    deploys exampleProvider exampleProcess "staging" "demo" stacks app /\
    groups app !! appStack.ecsServiceSecurityGroup (bin.appStack stacks)
      = Some svc /\
    Cidr.address "10.0.1.5" = Some (address source) /\
    inNetworkBlock (foundationStack.vpc (bin.foundationStack stacks))
      (address source) = true /\
    admitsInbound svc ec2.UDP 4369 source = false /\
    admitsInbound svc ec2.ICMP 0 source = false /\
    existsb (fun r => bool_decide (ec2.protocol (ec2.connection r) = ec2.ALL))
      (ec2.ingressRules svc) = false.
Proof.
  destruct (deploy_returns exampleProvider exampleProcess "staging" "demo")
    as (stacks & app & Hrun).
  destruct (service_group_rules _ _ _ _ _ _ Hrun)
    as (svc & Hsvc & Hrules & _ & _).
  exists stacks, app, svc, {| address := 167772421; memberOf := [] |}.
  split; [exact Hrun|]. split; [exact Hsvc|].
  split; [vm_compute; reflexivity|].
  split; [apply (network_block_addresses _ _ _ _ _ _ Hrun); simpl; lia|].
  rewrite !(service_group_inbound _ _ _ _ _ _ _ Hrun Hsvc), Hrules.
  repeat split.
Qed.

(** C4, amended.  The service's security group has a rule that lets in TCP
    on every port, 0 to 65535, from the whole block of the network; every
    TCP packet from inside the block is therefore let in, and no packet of
    another protocol is, whatever its source. *)
Theorem cluster_rule_all_tcp pv process stage appName :
  exists stacks app svc,
    deploys pv process stage appName stacks app /\
    groups app !! appStack.ecsServiceSecurityGroup (bin.appStack stacks)
      = Some svc /\
    let vpc := foundationStack.vpc (bin.foundationStack stacks) in
    rule (ec2.Peer.ipv4 (ec2.Vpc.vpcCidrBlock vpc)) ec2.Port.allTcp
      "Allow TCP traffic from other nodes for libcluster"
      ∈ ec2.ingressRules svc /\
    ec2.Port.allTcp =
      {| ec2.protocol := ec2.TCP; ec2.fromPort := Some 0;
         ec2.toPort := Some 65535 |} /\
    (forall p source,
       0 <= p <= 65535 ->
       inNetworkBlock vpc (address source) = true ->
       admitsInbound svc ec2.TCP p source = true) /\
    (forall proto p source,
       proto <> ec2.TCP -> admitsInbound svc proto p source = false).
Proof.
  destruct (deploy_returns pv process stage appName) as (stacks & app & Hrun).
  destruct (service_group_rules _ _ _ _ _ _ Hrun)
    as (svc & Hsvc & Hrules & _ & _).
  exists stacks, app, svc. cbv zeta.
  pose proof (service_group_inbound _ _ _ _ _ _ _ Hrun Hsvc) as Hin.
  split; [exact Hrun|]. split; [exact Hsvc|].
  split; [|split; [reflexivity|split]].
  - rewrite Hrules. apply list_elem_of_In. right. left. reflexivity.
  - intros p source [Hlo Hhi] Hblock. rewrite Hin, Hblock.
    rewrite bool_decide_eq_true_2 by reflexivity.
    apply Z.leb_le in Hlo, Hhi. rewrite Hlo, Hhi. simpl.
    apply orb_true_r.
  - intros proto p source Hproto. rewrite Hin.
    rewrite (bool_decide_eq_false_2 _ Hproto). reflexivity.
Qed.

(** ** C5: the four fields of the database secret *)

(** C5.  The application stack imports the secret by the ARN the database
    stack exported, and the task definition the service runs binds
    DB_USERNAME, DB_PASSWORD, DB_HOST and DB_PORT to the fields username,
    password, host and port of that secret; no other binding of the task
    definition reads a field.  Each of the four is a field of the secret the
    database stack made: username comes from its template and password is its
    generated key, and host and port are there because the database stack
    hands the secret to the instance as its credentials, so that the
    instance attaches it to itself. *)
Theorem database_secret_fields pv process stage appName :
  exists stacks app,
    deploys pv process stage appName stacks app /\
    let made :=
      databaseStack.databaseCredentialsSecret (bin.databaseStack stacks) in
    let imported :=
      appStack.databaseCredentialsSecret (bin.appStack stacks) in
    let db := databaseStack.database (bin.databaseStack stacks) in
    let taskDefinition :=
      ecs.taskDefinition
        (ecs.serviceProps (appStack.ecsService (bin.appStack stacks))) in
    secretsManager.secretArn imported = secretsManager.secretArn made /\
    (rds.credentials (rds.dbProps db) = rds.Credentials.fromSecret made /\
     rds.secret db =
       Some {| rds.attachedSecret := made;
               rds.attachmentTarget := rds.dbPath db |}) /\
    (ecs.containers taskDefinition = [appStack.container (bin.appStack stacks)] /\
     taskSecrets stacks = containerSecrets stacks) /\
    fieldBindings (taskSecrets stacks) =
      [("DB_USERNAME", ecs.Secret.fromSecretsManager imported (Some "username"));
       ("DB_PASSWORD", ecs.Secret.fromSecretsManager imported (Some "password"));
       ("DB_HOST", ecs.Secret.fromSecretsManager imported (Some "host"));
       ("DB_PORT", ecs.Secret.fromSecretsManager imported (Some "port"))] /\
    secretsManager.generatedKeys made = ["username"; "password"] /\
    rds.secretKeys db
      = ["username"; "password"; "engine"; "host"; "port";
         "dbInstanceIdentifier"] /\
    Forall
      (fun kv =>
         ecs.fromSecretArn (snd kv) = secretsManager.secretArn made /\
         exists key, ecs.field (snd kv) = Some key /\ key ∈ rds.secretKeys db)
      (fieldBindings (taskSecrets stacks)).
Proof.
  destruct (deploy_returns pv process stage appName) as (stacks & app & Hrun).
  exists stacks, app. split; [exact Hrun|]. cbv zeta.
  assert (Hkeys :
            rds.secretKeys (databaseStack.database (bin.databaseStack stacks))
            = ["username"; "password"; "engine"; "host"; "port";
               "dbInstanceIdentifier"]) by observe Hrun.
  assert (Harn :
            secretsManager.secretArn
              (appStack.databaseCredentialsSecret (bin.appStack stacks))
            = secretsManager.secretArn
                (databaseStack.databaseCredentialsSecret
                   (bin.databaseStack stacks)))
    by observe_both Hrun Hrun.
  assert (Hbound :
            fieldBindings (taskSecrets stacks) =
            map (fun kf =>
                   (fst kf,
                    ecs.Secret.fromSecretsManager
                      (appStack.databaseCredentialsSecret (bin.appStack stacks))
                      (Some (snd kf))))
                [("DB_USERNAME", "username"); ("DB_PASSWORD", "password");
                 ("DB_HOST", "host"); ("DB_PORT", "port")])
    by observe_both Hrun Hrun.
  split; [exact Harn|]. split; [split; observe_both Hrun Hrun|].
  split; [split; observe_both Hrun Hrun|].
  split; [exact Hbound|]. split; [observe Hrun|]. split; [exact Hkeys|].
  rewrite Hbound, Hkeys. simpl.
  repeat (apply Forall_cons; split;
          [split;
           [exact Harn
           |eexists; split;
            [reflexivity | apply list_elem_of_In; simpl; tauto]]|]).
  apply Forall_nil. exact I.
Qed.

(** ** C6: the database's security group *)

(** C6, as stated, fails for stage "staging" and name "demo": the group
    the database stack created without rules has an ingress rule once the
    application stack has been built. *)
Lemma database_group_counterexample :
  exists tier app0 stacks app created final,
    bin.dataTier exampleProvider exampleProcess "staging" "demo" emptyApp
      = inr (tier, app0) /\
    deploys exampleProvider exampleProcess "staging" "demo" stacks app /\
    bin.databaseStack stacks = snd tier /\
    groups app0 !! databaseStack.databaseSecurityGroup (snd tier)
      = Some created /\
    groups app !! databaseStack.databaseSecurityGroup (snd tier)
      = Some final /\
    ec2.ingressRules created = [] /\
    length (ec2.ingressRules final) = 1%nat /\
    final <> created.
Proof.
  destruct (dataTier_returns exampleProvider exampleProcess "staging" "demo")
    as (f & d & app0 & Hdata).
  destruct (deploy_returns exampleProvider exampleProcess "staging" "demo")
    as (stacks & app & Hrun).
  destruct (database_group_before_and_after _ _ _ _ _ _ _ _ Hdata Hrun)
    as (Hd & created & final & Hc & Hf & Hcin & _ & Hfinal).
  cbv zeta in Hc, Hf, Hfinal. rewrite Hd in Hc, Hf.
  exists (f, d), app0, stacks, app, created, final.
  split; [exact Hdata|]. split; [exact Hrun|]. split; [exact Hd|].
  split; [exact Hc|]. split; [exact Hf|]. split; [exact Hcin|].
  split; [rewrite Hfinal; reflexivity|].
  intros Heq. apply (f_equal ec2.ingressRules) in Heq.
  rewrite Hcin, Hfinal in Heq. discriminate Heq.
Qed.

(** C6, amended.  The database stack creates the database's security group
    with no rules, and all that happens to it afterwards is that the
    application stack adds one ingress rule: TCP 5432 from the service's
    security group, the other half of the [allowTo] the application stack
    declares on the service group's connections towards the database.  On the
    service's own group that [allowTo] records no egress rule, because the
    group already allows all outbound traffic.  The accelerator stack changes
    no security group. *)
Theorem database_group_after_app pv process stage appName :
  exists tier app0 stacks app created final svc,
    bin.dataTier pv process stage appName emptyApp = inr (tier, app0) /\
    deploys pv process stage appName stacks app /\
    bin.databaseStack stacks = snd tier /\
    let d := databaseStack.databaseSecurityGroup (bin.databaseStack stacks) in
    let s := appStack.ecsServiceSecurityGroup (bin.appStack stacks) in
    groups app0 !! d = Some created /\
    groups app !! d = Some final /\
    groups app !! s = Some svc /\
    (ec2.ingressRules created = [] /\ ec2.egressRules created = []) /\
    ec2.securityGroups
      (rds.connections (databaseStack.database (bin.databaseStack stacks)))
      = [d] /\
    final =
      {| ec2.sgPath := ec2.sgPath created;
         ec2.sgProps := ec2.sgProps created;
         ec2.ingressRules :=
           [rule (ec2.SecurityGroupPeer s) (ec2.Port.tcp 5432)
              "Allow traffic on port 5432 from the ECS service to the database"];
         ec2.egressRules := [] |} /\
    (ec2.egressRules svc = [] /\ ec2.allowsAllOutbound svc = true) /\
    (forall id props,
       exists r app',
         routingStack.new pv id props app = inr (r, app') /\
         groups app' = groups app).
Proof.
  destruct (dataTier_returns pv process stage appName)
    as (f & d & app0 & Hdata).
  destruct (deploy_returns pv process stage appName) as (stacks & app & Hrun).
  destruct (database_group_before_and_after _ _ _ _ _ _ _ _ Hdata Hrun)
    as (Hd & created & final & Hc & Hf & Hcin & Hcout & Hfinal).
  destruct (service_group_rules _ _ _ _ _ _ Hrun)
    as (svc & Hsvc & _ & Hout & Hall).
  exists (f, d), app0, stacks, app, created, final, svc. cbv zeta.
  split; [exact Hdata|]. split; [exact Hrun|]. split; [exact Hd|].
  split; [exact Hc|]. split; [exact Hf|]. split; [exact Hsvc|].
  split; [split; assumption|].
  split.
  { destruct (group_references _ _ _ _ _ _ Hrun) as (-> & _ & _).
    observe Hrun. }
  split; [exact Hfinal|]. split; [split; assumption|].
  intros id props. apply routing_stack_keeps_groups.
Qed.

(** ** C7: created with no replica *)

(** C7.  The service is created with a desired count of zero, and it is
    created whole: with its task definition and the container in it, in its
    cluster, with its security group, and registered as the target of the
    load balancer's listener.  The script sets no other count. *)
Theorem service_created_with_zero_replicas pv process stage appName :
  exists stacks app,
    deploys pv process stage appName stacks app /\
    let a := bin.appStack stacks in
    let svc := appStack.ecsService a in
    ecs.desiredCount (ecs.serviceProps svc) = Some 0 /\
    ecs.taskDefinition (ecs.serviceProps svc) = appStack.taskDefinition a /\
    ecs.containers (appStack.taskDefinition a) = [appStack.container a] /\
    ecs.cluster (ecs.serviceProps svc) = appStack.ecsCluster a /\
    ecs.securityGroups (ecs.serviceProps svc)
      = [appStack.ecsServiceSecurityGroup a] /\
    elbv2.targets (elbv2.targetGroupProps (appStack.lbTargetGroup a)) = [svc] /\
    elbv2.listenerLoadBalancer (appStack.lbListener a)
      = appStack.ecsLoadBalancer a /\
    length (groups app) = 3%nat.
Proof.
  destruct (deploy_returns pv process stage appName) as (stacks & app & Hrun).
  exists stacks, app. split; [exact Hrun|]. cbv zeta.
  split; [observe Hrun|].
  repeat split; first [observe_both Hrun Hrun | observe Hrun].
Qed.

(** ** C8: the health check of the target group *)

(** C8.  The health check of the target group is made every 5 seconds and
    times out after 3: the interval is longer than the timeout. *)
Theorem health_check_interval_exceeds_timeout pv process stage appName :
  exists stacks app interval timeout,
    deploys pv process stage appName stacks app /\
    let check :=
      elbv2.healthCheck
        (elbv2.targetGroupProps (appStack.lbTargetGroup (bin.appStack stacks))) in
    elbv2.interval check = Some interval /\
    elbv2.timeout check = Some timeout /\
    interval = Duration.seconds 5 /\ timeout = Duration.seconds 3 /\
    Duration.toSeconds timeout < Duration.toSeconds interval.
Proof.
  destruct (deploy_returns pv process stage appName) as (stacks & app & Hrun).
  exists stacks, app, (Duration.seconds 5), (Duration.seconds 3).
  split; [exact Hrun|]. cbv zeta.
  split; [observe Hrun|]. split; [observe Hrun|].
  split; [reflexivity|]. split; [reflexivity|]. simpl. lia.
Qed.

(** ** C9: names that do not depend on the stage *)

(** C9.  Two runs of the script that differ only in the stage name their
    cluster <appName>-ecs-cluster and their service <appName>-ecs-service,
    both of them, and compute the same ARN for the service. *)
Theorem names_ignore_stage pv process stage1 stage2 appName :
  exists stacks1 app1 stacks2 app2,
    deploys pv process stage1 appName stacks1 app1 /\
    deploys pv process stage2 appName stacks2 app2 /\
    let a1 := bin.appStack stacks1 in
    let a2 := bin.appStack stacks2 in
    (appStack.ecsClusterName a1 = appName +:+ "-ecs-cluster" /\
     appStack.ecsClusterName a2 = appName +:+ "-ecs-cluster") /\
    (appStack.ecsServiceName a1 = appName +:+ "-ecs-service" /\
     appStack.ecsServiceName a2 = appName +:+ "-ecs-service") /\
    (ecs.clusterName (appStack.ecsCluster a1)
       = ecs.clusterName (appStack.ecsCluster a2) /\
     ecs.clusterName (appStack.ecsCluster a1)
       = Some (appName +:+ "-ecs-cluster")) /\
    (ecs.serviceName (ecs.serviceProps (appStack.ecsService a1))
       = ecs.serviceName (ecs.serviceProps (appStack.ecsService a2)) /\
     ecs.serviceName (ecs.serviceProps (appStack.ecsService a1))
       = Some (appName +:+ "-ecs-service")) /\
    appStack.ecsServiceArn a1 = appStack.ecsServiceArn a2 /\
    property "AWS_ECS_SERVICE_ARN" (containerEnvironment stacks1)
      = property "AWS_ECS_SERVICE_ARN" (containerEnvironment stacks2) /\
    property "AWS_ECS_CLUSTER_NAME" (containerEnvironment stacks1)
      = property "AWS_ECS_CLUSTER_NAME" (containerEnvironment stacks2).
Proof.
  destruct (deploy_returns pv process stage1 appName)
    as (stacks1 & app1 & Hrun1).
  destruct (deploy_returns pv process stage2 appName)
    as (stacks2 & app2 & Hrun2).
  exists stacks1, app1, stacks2, app2.
  split; [exact Hrun1|]. split; [exact Hrun2|]. cbv zeta.
  split; [split; [observe Hrun1 | observe Hrun2]|].
  split; [split; [observe Hrun1 | observe Hrun2]|].
  split; [split; [observe_both Hrun1 Hrun2 | observe Hrun1]|].
  split; [split; [observe_both Hrun1 Hrun2 | observe Hrun1]|].
  split; [observe_both Hrun1 Hrun2|].
  split; observe_both Hrun1 Hrun2.
Qed.

(** ** C10: where the tasks run *)

(** C10.  The tasks of the service get a public address and are placed in
    the subnets of the public group, one in each of the two zones; the
    database is placed in the private isolated group, which shares no subnet
    with the public one; and the network, the same for both, has no NAT
    gateway. *)
Theorem tasks_run_in_public_subnets pv process stage appName :
  exists stacks app,
    deploys pv process stage appName stacks app /\
    let vpc := foundationStack.vpc (bin.foundationStack stacks) in
    let svc := appStack.ecsService (bin.appStack stacks) in
    let db := databaseStack.database (bin.databaseStack stacks) in
    let public az :=
      {| ec2.subnetGroup := "public"; ec2.subnetKind := ec2.PUBLIC;
         ec2.availabilityZone := az |} in
    let private az :=
      {| ec2.subnetGroup := "private"; ec2.subnetKind := ec2.PRIVATE_ISOLATED;
         ec2.availabilityZone := az |} in
    ecs.assignPublicIp (ecs.serviceProps svc) = Some true /\
    ecs.vpcSubnets (ecs.serviceProps svc)
      = Some {| ec2.selectSubnetType := ec2.PUBLIC |} /\
    ecs.taskSubnets svc = [public 0%nat; public 1%nat] /\
    (ecs.clusterVpc (ecs.cluster (ecs.serviceProps svc)) = vpc /\
     rds.vpc (rds.dbProps db) = vpc) /\
    rds.vpcSubnets (rds.dbProps db)
      = {| ec2.selectSubnetType := ec2.PRIVATE_ISOLATED |} /\
    ec2.Vpc.selectSubnets vpc (rds.vpcSubnets (rds.dbProps db))
      = [private 0%nat; private 1%nat] /\
    rds.publiclyAccessible (rds.dbProps db) = false /\
    ec2.natGateways (ec2.vpcProps vpc) = 0.
Proof.
  destruct (deploy_returns pv process stage appName) as (stacks & app & Hrun).
  exists stacks, app. split; [exact Hrun|]. cbv zeta.
  split; [observe Hrun|].
  repeat split; first [observe Hrun | observe_both Hrun Hrun].
Qed.

(** * Further properties of the stacks *)

(** ** Running a constructor against any tree *)

Lemma returns_bind {A B} (c : Synth A) (k : A -> Synth B) app x app1 y app2 :
  returns c app x app1 -> returns (k x) app1 y app2 ->
  returns (andThen c k) app y app2.
Proof. unfold returns, andThen. intros -> H. exact H. Qed.

Lemma returns_forEach_cons {A} (f : A -> Synth unit) x l app app1 app2 :
  returns (f x) app tt app1 -> returns (forEach l f) app1 tt app2 ->
  returns (forEach (x :: l) f) app tt app2.
Proof. intros H1 H2. exact (returns_bind _ _ _ _ _ _ _ H1 H2). Qed.

Lemma returns_forEach_one {A} (f : A -> Synth unit) x app app1 :
  returns (f x) app tt app1 -> returns (forEach [x] f) app tt app1.
Proof. intros H. eapply returns_forEach_cons; [exact H|reflexivity]. Qed.

Lemma returns_forEach_same {A} (f : A -> Synth unit) l app :
  (forall x, returns (f x) app tt app) -> returns (forEach l f) app tt app.
Proof.
  intros H. induction l as [|x l IH]; [reflexivity|].
  eapply returns_forEach_cons; [apply H|exact IH].
Qed.

Lemma insert_alter {A} (f : A -> A) (l : list A) i x :
  l !! i = Some x -> <[i := f x]> l = alter f i l.
Proof.
  revert i. induction l as [|y l IH]; intros [|i]; simpl; try discriminate.
  - intros [= ->]. reflexivity.
  - intros H. f_equal. apply IH. exact H.
Qed.

Lemma returns_addIngressRule l o g p c d :
  (g < length l)%nat ->
  returns (SecurityGroup.addIngressRule g p c d)
    {| groups := l; outputs := o |} tt
    {| groups := alter (withIngress p c d) g l; outputs := o |}.
Proof.
  intros Hg. destruct (lookup_lt_is_Some_2 l g Hg) as [sg Hsg].
  unfold returns, SecurityGroup.addIngressRule, SecurityGroup.update. simpl.
  rewrite Hsg. rewrite <- (insert_alter _ _ _ _ Hsg). reflexivity.
Qed.

Lemma returns_addEgressRule_open l o g p c d sg :
  l !! g = Some sg -> ec2.allowsAllOutbound sg = true ->
  returns (SecurityGroup.addEgressRule g p c d)
    {| groups := l; outputs := o |} tt {| groups := l; outputs := o |}.
Proof.
  intros Hsg Hopen.
  unfold returns, SecurityGroup.addEgressRule, SecurityGroup.update. simpl.
  rewrite Hsg, Hopen. rewrite list_insert_id by exact Hsg. reflexivity.
Qed.

Lemma returns_ingress_at gs p c d l o :
  Forall (fun g => (g < length l)%nat) gs ->
  returns
    (forEach gs (fun g =>
       forEach [p] (fun p => SecurityGroup.addIngressRule g p c d)))
    {| groups := l; outputs := o |} tt
    {| groups := withIngressAt gs p c d l; outputs := o |}.
Proof.
  revert l. induction gs as [|g gs IH]; intros l Hgs; [reflexivity|].
  inversion Hgs as [|? ? Hg Hrest]; subst.
  eapply returns_forEach_cons.
  - apply returns_forEach_one. apply returns_addIngressRule. exact Hg.
  - apply IH. rewrite length_alter. exact Hrest.
Qed.

Lemma allowsAllOutbound_withIngress p c d sg :
  ec2.allowsAllOutbound (withIngress p c d sg) = ec2.allowsAllOutbound sg.
Proof. unfold withIngress. destruct (existsb _ _); reflexivity. Qed.

Lemma alter_first {A} (f : A -> A) (l : list A) x t n :
  n = length l -> alter f n (l ++ x :: t) = l ++ f x :: t.
Proof. intros ->. induction l as [|y l IH]; simpl; [reflexivity|]. f_equal. exact IH. Qed.

Lemma alter_second {A} (f : A -> A) (l : list A) x y t n :
  n = S (length l) -> alter f n (l ++ x :: y :: t) = l ++ x :: f y :: t.
Proof. intros ->. induction l as [|z l IH]; simpl; [reflexivity|]. f_equal. exact IH. Qed.

Lemma length_withIngressAt gs p c d l :
  length (withIngressAt gs p c d l) = length l.
Proof.
  unfold withIngressAt. revert l. induction gs as [|g gs IH]; intros l; simpl; [reflexivity|].
  rewrite IH, length_alter. reflexivity.
Qed.

Lemma withIngressAt_app gs p c d l t :
  Forall (fun g => (g < length l)%nat) gs ->
  withIngressAt gs p c d (l ++ t) = withIngressAt gs p c d l ++ t.
Proof.
  unfold withIngressAt. revert l. induction gs as [|g gs IH]; intros l Hgs; simpl; [reflexivity|].
  inversion Hgs as [|? ? Hg Hrest]; subst.
  rewrite alter_app_l by exact Hg. apply IH. rewrite length_alter. exact Hrest.
Qed.

Section Primitives.
Variables (l : list ec2.SecurityGroup) (a s : ec2.SecurityGroup).
Variables (t : list ec2.SecurityGroup) (o : list CfnOutput).
Variables (p : ec2.Peer) (c : ec2.Port) (d : string).

Lemma returns_new_second scope id props :
  returns (SecurityGroup.new scope id props)
    {| groups := l ++ [a]; outputs := o |} (S (length l))
    {| groups :=
         l ++ [a; {| ec2.sgPath := Stack.path scope id; ec2.sgProps := props;
                     ec2.ingressRules := []; ec2.egressRules := [] |}];
       outputs := o |}.
Proof.
  unfold returns, SecurityGroup.new. simpl.
  rewrite length_app, <- app_assoc. simpl. rewrite Nat.add_1_r. reflexivity.
Qed.

Lemma returns_ingress_first n :
  n = length l ->
  returns (SecurityGroup.addIngressRule n p c d)
    {| groups := l ++ a :: t; outputs := o |} tt
    {| groups := l ++ withIngress p c d a :: t; outputs := o |}.
Proof.
  intros Hn. rewrite <- (alter_first (withIngress p c d) l a t n Hn).
  apply returns_addIngressRule. rewrite length_app. simpl. lia.
Qed.

Lemma returns_ingress_second n :
  n = S (length l) ->
  returns (SecurityGroup.addIngressRule n p c d)
    {| groups := l ++ a :: s :: t; outputs := o |} tt
    {| groups := l ++ a :: withIngress p c d s :: t; outputs := o |}.
Proof.
  intros Hn. rewrite <- (alter_second (withIngress p c d) l a s t n Hn).
  apply returns_addIngressRule. rewrite length_app. simpl. lia.
Qed.

Lemma returns_egress_first n :
  n = length l -> ec2.allowsAllOutbound a = true ->
  returns (SecurityGroup.addEgressRule n p c d)
    {| groups := l ++ a :: t; outputs := o |} tt
    {| groups := l ++ a :: t; outputs := o |}.
Proof.
  intros -> Hopen. apply returns_addEgressRule_open with (sg := a); [|exact Hopen].
  apply list_lookup_middle. reflexivity.
Qed.

Lemma returns_egress_second n :
  n = S (length l) -> ec2.allowsAllOutbound s = true ->
  returns (SecurityGroup.addEgressRule n p c d)
    {| groups := l ++ a :: s :: t; outputs := o |} tt
    {| groups := l ++ a :: s :: t; outputs := o |}.
Proof.
  intros -> Hopen. apply returns_addEgressRule_open with (sg := s); [|exact Hopen].
  change (l ++ a :: s :: t) with (l ++ [a] ++ s :: t). rewrite app_assoc.
  apply list_lookup_middle. rewrite length_app. simpl. lia.
Qed.
End Primitives.

Lemma returns_allowFrom `{IConnectable B} (this : ec2.Connections) (other : B)
    c d app app1 app2 :
  returns (forEach (ec2.securityGroups this) (fun g =>
             forEach (ec2.peers (connectionsOf other))
               (fun p => SecurityGroup.addIngressRule g p c d))) app tt app1 ->
  returns (forEach (ec2.securityGroups (connectionsOf other)) (fun g =>
             forEach (ec2.peers this)
               (fun p => SecurityGroup.addEgressRule g p c d))) app1 tt app2 ->
  returns (Connections.allowFrom this other c d) app tt app2.
Proof. intros H1 H2. exact (returns_bind _ _ _ _ _ _ _ H1 H2). Qed.

Lemma returns_allowTo `{IConnectable B} (this : ec2.Connections) (other : B)
    c d app app1 app2 :
  returns (forEach (ec2.securityGroups this) (fun g =>
             forEach (ec2.peers (connectionsOf other))
               (fun p => SecurityGroup.addEgressRule g p c d))) app tt app1 ->
  returns (forEach (ec2.securityGroups (connectionsOf other)) (fun g =>
             forEach (ec2.peers this)
               (fun p => SecurityGroup.addIngressRule g p c d))) app1 tt app2 ->
  returns (Connections.allowTo this other c d) app tt app2.
Proof. intros H1 H2. exact (returns_bind _ _ _ _ _ _ _ H1 H2). Qed.


Lemma sameRule_refl p c d : SecurityGroup.sameRule p c (rule p c d) = true.
Proof.
  unfold SecurityGroup.sameRule, rule. simpl.
  rewrite !bool_decide_eq_true_2 by reflexivity. reflexivity.
Qed.

Lemma withIngress_idempotent p c d sg :
  withIngress p c d (withIngress p c d sg) = withIngress p c d sg.
Proof.
  unfold withIngress.
  destruct (existsb (SecurityGroup.sameRule p c) (ec2.ingressRules sg)) eqn:Hsg.
  - rewrite Hsg. reflexivity.
  - simpl. rewrite existsb_app. simpl.
    rewrite sameRule_refl, orb_true_r. reflexivity.
Qed.

(** Asking again for a rule that is there changes nothing. *)
Lemma withIngress_present p c d sg :
  existsb (SecurityGroup.sameRule p c) (ec2.ingressRules sg) = true ->
  withIngress p c d sg = sg.
Proof. unfold withIngress. intros ->. reflexivity. Qed.

Lemma lookup_withIngressAt gs p c d l g sg :
  l !! g = Some sg ->
  withIngressAt gs p c d l !! g =
  Some (if bool_decide (g ∈ gs) then withIngress p c d sg else sg).
Proof.
  unfold withIngressAt. revert l sg.
  induction gs as [|g0 gs IH]; intros l sg Hsg; simpl; [exact Hsg|].
  destruct (decide (g = g0)) as [->|Hne].
  - rewrite (IH _ (withIngress p c d sg)).
    + rewrite (bool_decide_eq_true_2 (g0 ∈ g0 :: gs)) by apply list_elem_of_here.
      destruct (bool_decide (g0 ∈ gs)); [rewrite withIngress_idempotent|]; reflexivity.
    + rewrite list_lookup_alter_eq, Hsg. reflexivity.
  - rewrite (IH _ sg).
    + destruct (decide (g ∈ gs)) as [Hin|Hnin].
      * rewrite !bool_decide_eq_true_2; [reflexivity| |exact Hin].
        apply list_elem_of_further. exact Hin.
      * rewrite !bool_decide_eq_false_2; [reflexivity| |exact Hnin].
        intros Hin. apply elem_of_cons in Hin as [?|?]; [congruence|]. exact (Hnin H).
    + rewrite list_lookup_alter_ne by congruence. exact Hsg.
Qed.

(** The application stack's constructor, run against any tree in which
    the database's security groups exist: it returns, and this is the tree
    it leaves. *)
Lemma appStack_new_returns pv id props G O :
  Forall (fun g => (g < length G)%nat)
    (ec2.securityGroups (rds.connections (appStack.database props))) ->
  exists a app',
    returns (appStack.new pv id props) {| groups := G; outputs := O |} a app' /\
    (appStack.ecsAlbSecurityGroup a = length G /\
     appStack.ecsServiceSecurityGroup a = S (length G)) /\
    (exists alb svc,
       groups app' =
         withIngressAt
           (ec2.securityGroups (rds.connections (appStack.database props)))
           (ec2.SecurityGroupPeer (S (length G))) (ec2.Port.tcp 5432)
           "Allow traffic on port 5432 from the ECS service to the database"
           G ++ [alb; svc] /\
       (ec2.ingressRules alb =
          [rule ec2.Peer.anyIpv4 (ec2.Port.tcp 80)
             "Allow HTTP traffic from anywhere"] /\
        ec2.egressRules alb = [] /\ ec2.allowsAllOutbound alb = true) /\
       (ec2.ingressRules svc =
          [rule (ec2.SecurityGroupPeer (length G)) (ec2.Port.tcp 4000)
             "Allow TCP traffic on port 4000 from the load balancer";
           rule (ec2.Peer.ipv4 (ec2.Vpc.vpcCidrBlock (appStack.vpc props)))
             ec2.Port.allTcp
             "Allow TCP traffic from other nodes for libcluster"] /\
        ec2.egressRules svc = [] /\ ec2.allowsAllOutbound svc = true)) /\
    outputs app' =
      O ++ [ {| outputStack := id; outputId := "Load balancer DNS name";
                outputValue :=
                  elbv2.loadBalancerDnsName (appStack.ecsLoadBalancer a) |};
             {| outputStack := id; outputId := "GitHub OAuth Client ID ARN";
                outputValue :=
                  secretsManager.secretArn
                    (appStack.liveBeatsGitHubClientIdSecret a) |};
             {| outputStack := id;
                outputId := "GitHub OAuth Client secret ARN";
                outputValue :=
                  secretsManager.secretArn
                    (appStack.liveBeatsGitHubClientSecretSecret a) |} ].
Proof.
  intros HD. eexists _, _. split.
  {   unfold appStack.new. cbv beta zeta.
    unfold appStack.new. cbv beta zeta.
    (* alb group *)
    eapply returns_bind; [reflexivity|]. cbn [groups outputs].
    eapply returns_bind; [apply returns_ingress_first; reflexivity|].
    (* service group *)
    eapply returns_bind; [apply returns_new_second|].
    eapply returns_bind.
    { eapply returns_allowFrom.
      - apply returns_forEach_one, returns_forEach_one.
        apply returns_ingress_second. reflexivity.
      - apply returns_forEach_one, returns_forEach_one.
        apply returns_egress_first; [reflexivity|].
        rewrite allowsAllOutbound_withIngress. reflexivity. }
    eapply returns_bind.
    { eapply returns_allowFrom.
      - apply returns_forEach_one, returns_forEach_one.
        apply returns_ingress_second. reflexivity.
      - reflexivity. }
    eapply returns_bind.
    { eapply returns_allowTo.
      - apply returns_forEach_one, returns_forEach_same. intros p.
        apply returns_egress_second; [reflexivity|].
        rewrite !allowsAllOutbound_withIngress. reflexivity.
      - apply returns_ingress_at.
        eapply Forall_impl; [exact HD|]. intros g Hg. simpl in Hg |- *.
        rewrite length_app. simpl. lia. }
    rewrite withIngressAt_app by exact HD.
    eapply returns_bind; [reflexivity|].
    (* listener *)
    eapply returns_bind.
    { unfold elbv2.addListener. cbv beta zeta.
      eapply returns_bind; [|reflexivity].
      unfold Connections.allowDefaultPortFrom.
      cbn [ec2.defaultPort elbv2.listenerConnections].
      eapply returns_allowFrom.
      - apply returns_forEach_one, returns_forEach_one.
        apply returns_ingress_first. rewrite length_withIngressAt. reflexivity.
      - reflexivity. }
    eapply returns_bind; [reflexivity|]. cbn [groups outputs].
    eapply returns_bind; [reflexivity|]. cbn [groups outputs].
    eapply returns_bind; [reflexivity|]. cbn [groups outputs].
    cbv beta iota zeta delta [ecs.addContainer].
    (* target group *)
    eapply returns_bind.
    { unfold elbv2.addTargets. cbv beta zeta.
      eapply returns_bind; [|reflexivity].
      cbn [elbv2.targets]. apply returns_forEach_one.
      eapply returns_allowFrom.
      - apply returns_forEach_one, returns_forEach_one.
        apply returns_ingress_second. rewrite length_withIngressAt. reflexivity.
      - apply returns_forEach_one, returns_forEach_one.
        apply returns_egress_first; [rewrite length_withIngressAt; reflexivity|].
        rewrite !allowsAllOutbound_withIngress. reflexivity. }
    reflexivity. }
  cbn [groups outputs].
  split; [split; reflexivity|]. split; [|rewrite <- !app_assoc; reflexivity].
  eexists _, _. split; [reflexivity|]. split.
  - split; [|split]; reflexivity.
  - match goal with
    | |- context [ec2.Port.tcp (default ?x ?y)] =>
        change (default x y) with 4000
    end.
    match goal with
    | |- context [ec2.SecurityGroupPeer (elbv2.securityGroup ?lb)] =>
        change (elbv2.securityGroup lb) with (length G)
    end.
    rewrite (withIngress_present (ec2.SecurityGroupPeer (length G))).
    + split; [|split]; reflexivity.
    + apply orb_true_iff. left. apply sameRule_refl.
Qed.

(** X1.  Whenever the application stack's constructor returns, in
    whatever tree it was run and with whatever properties, as long as the
    security groups of [props.database] are in the tree: it has added its two
    security groups at the end of the store, both with the default rule that
    allows all outbound traffic and no other egress rule, and it has left
    every group that was there as it was, except that each group of the
    database has got the ingress rule for TCP 5432 from the service's group,
    once.  Its three CfnOutput constructs come after those that were
    there. *)
Theorem appStack_keeps_the_tree pv id props app a app' :
  Forall (fun g => (g < length (groups app))%nat)
    (ec2.securityGroups (rds.connections (appStack.database props))) ->
  appStack.new pv id props app = inr (a, app') ->
  let alb := appStack.ecsAlbSecurityGroup a in
  let svc := appStack.ecsServiceSecurityGroup a in
  (alb = length (groups app) /\ svc = S (length (groups app)) /\
   length (groups app') = S (S (length (groups app)))) /\
  (forall g sg,
     groups app !! g = Some sg ->
     groups app' !! g =
     Some (if bool_decide
                (g ∈ ec2.securityGroups
                       (rds.connections (appStack.database props)))
           then withIngress (ec2.SecurityGroupPeer svc) (ec2.Port.tcp 5432)
                  "Allow traffic on port 5432 from the ECS service to the database"
                  sg
           else sg)) /\
  (exists albGroup svcGroup,
     groups app' !! alb = Some albGroup /\
     groups app' !! svc = Some svcGroup /\
     ec2.ingressRules albGroup =
       [rule ec2.Peer.anyIpv4 (ec2.Port.tcp 80)
          "Allow HTTP traffic from anywhere"] /\
     ec2.ingressRules svcGroup =
       [rule (ec2.SecurityGroupPeer alb) (ec2.Port.tcp 4000)
          "Allow TCP traffic on port 4000 from the load balancer";
        rule (ec2.Peer.ipv4 (ec2.Vpc.vpcCidrBlock (appStack.vpc props)))
          ec2.Port.allTcp
          "Allow TCP traffic from other nodes for libcluster"] /\
     (ec2.allowsAllOutbound albGroup = true /\ ec2.egressRules albGroup = []) /\
     (ec2.allowsAllOutbound svcGroup = true /\ ec2.egressRules svcGroup = [])) /\
  map outputId (outputs app') =
    map outputId (outputs app)
    ++ ["Load balancer DNS name"; "GitHub OAuth Client ID ARN";
        "GitHub OAuth Client secret ARN"].
Proof.
  intros HD Hreturned. destruct app as [G O]. simpl in HD.
  destruct (appStack_new_returns pv id props G O HD)
    as (a0 & app0 & Hrun & (Halb & Hsvc) & (alb & svc & Hgroups & Ha & Hs) & Hout).
  unfold returns in Hrun. rewrite Hreturned in Hrun.
  injection Hrun as <- <-.
  cbv zeta. simpl groups. simpl outputs.
  rewrite Halb, Hsvc, Hgroups, Hout.
  split; [|split; [|split]].
  - split; [reflexivity|]. split; [reflexivity|].
    rewrite length_app, length_withIngressAt. simpl. lia.
  - intros g sg Hg. rewrite lookup_app_l.
    + apply lookup_withIngressAt. exact Hg.
    + rewrite length_withIngressAt. apply lookup_lt_Some in Hg. exact Hg.
  - exists alb, svc.
    destruct Ha as (Hain & Haout & Haopen).
    destruct Hs as (Hsin & Hsout & Hsopen).
    split; [apply list_lookup_middle; rewrite length_withIngressAt; reflexivity|].
    split.
    { change (?l ++ [alb; svc]) with (l ++ [alb] ++ [svc]). rewrite app_assoc.
      apply list_lookup_middle. rewrite length_app, length_withIngressAt.
      simpl. lia. }
    repeat split; assumption.
  - rewrite map_app. reflexivity.
Qed.

(** The three constructors of the script, run one after the other against
    any tree. *)
Lemma deploy_steps pv process stage appName app0 :
  exists stacks app db alb svc,
    bin.deploy pv process stage appName app0 = inr (stacks, app) /\
    groups app = groups app0 ++ [db; alb; svc] /\
    (databaseStack.databaseSecurityGroup (bin.databaseStack stacks)
       = length (groups app0) /\
     appStack.ecsAlbSecurityGroup (bin.appStack stacks)
       = S (length (groups app0)) /\
     appStack.ecsServiceSecurityGroup (bin.appStack stacks)
       = S (S (length (groups app0)))) /\
    (ec2.ingressRules db =
       [rule (ec2.SecurityGroupPeer (S (S (length (groups app0)))))
          (ec2.Port.tcp 5432)
          "Allow traffic on port 5432 from the ECS service to the database"] /\
     ec2.ingressRules alb =
       [rule ec2.Peer.anyIpv4 (ec2.Port.tcp 80)
          "Allow HTTP traffic from anywhere"] /\
     ec2.ingressRules svc =
       [rule (ec2.SecurityGroupPeer (S (length (groups app0))))
          (ec2.Port.tcp 4000)
          "Allow TCP traffic on port 4000 from the load balancer";
        rule (ec2.Peer.ipv4 "10.0.0.0/21") ec2.Port.allTcp
          "Allow TCP traffic from other nodes for libcluster"]) /\
    (ec2.allowsAllOutbound db = true /\ ec2.allowsAllOutbound alb = true /\
     ec2.allowsAllOutbound svc = true) /\
    (ec2.egressRules db = [] /\ ec2.egressRules alb = [] /\
     ec2.egressRules svc = []) /\
    map outputId (outputs app) =
      map outputId (outputs app0)
      ++ ["Load balancer DNS name"; "GitHub OAuth Client ID ARN";
          "GitHub OAuth Client secret ARN"].
Proof.
  destruct app0 as [G O]. cbn [groups outputs].
  unfold bin.deploy.
  match goal with
  | |- context [andThen (bin.dataTier ?a ?b ?c ?d) ?k] =>
      assert (exists f d0 db,
                 returns (bin.dataTier a b c d) {| groups := G; outputs := O |}
                   (f, d0) {| groups := G ++ [db]; outputs := O |} /\
                 ec2.securityGroups (rds.connections (databaseStack.database d0)) = [length G] /\
                 databaseStack.databaseSecurityGroup d0 = length G /\
                 ec2.Vpc.vpcCidrBlock (foundationStack.vpc f) = "10.0.0.0/21" /\
                 ec2.ingressRules db = [] /\ ec2.egressRules db = [] /\
                 ec2.allowsAllOutbound db = true)
        as (f & d0 & db & Hdata & HD & Hdref & Hcidr & Hdbin & Hdbout & Hdbopen)
  end.
  { eexists _, _, _. split; [reflexivity|]. repeat split. }
  set (props := scriptAppStackProps process stage appName f d0).
  destruct (appStack_new_returns pv "app-stack" props (G ++ [db]) O)
    as (a & app' & Hrun & (Halb & Hsvc) & (alb & svc & Hgroups & Ha & Hs) & Hout).
  { subst props. cbn [appStack.database scriptAppStackProps]. rewrite HD.
    apply Forall_cons. split; [|apply Forall_nil; exact I].
    rewrite length_app. simpl. lia. }
  subst props.
  cbn [appStack.database appStack.vpc scriptAppStackProps] in Hgroups, Hs.
  rewrite HD in Hgroups. rewrite Hcidr in Hs.
  rewrite length_app, Nat.add_1_r in Halb, Hsvc, Hgroups, Hs.
  unfold withIngressAt in Hgroups. simpl foldl in Hgroups.
  rewrite (alter_first _ G db [] (length G) eq_refl) in Hgroups.
  rewrite <- app_assoc in Hgroups. simpl app in Hgroups.
  eexists _, app', _, alb, svc.
  split.
  { eapply returns_bind; [exact Hdata|]. cbv beta iota.
    eapply returns_bind; [exact Hrun|]. reflexivity. }
  cbn [bin.databaseStack bin.appStack].
  split; [exact Hgroups|].
  split; [repeat split; assumption|].
  destruct Ha as (Hain & Haout & Haopen).
  destruct Hs as (Hsin & Hsout & Hsopen).
  split.
  { split; [|split; assumption].
    unfold withIngress. rewrite Hdbin. reflexivity. }
  split.
  { split; [|split; assumption].
    rewrite allowsAllOutbound_withIngress. exact Hdbopen. }
  split.
  { split; [|split; assumption].
    unfold withIngress. rewrite Hdbin. simpl. exact Hdbout. }
  rewrite Hout, map_app. reflexivity.
Qed.

(** X2.  Whenever the script's three constructors, run one after the other
    against a tree that need not be empty, return: every security group that
    was in the tree is as it was, and exactly three have been added after
    them, the database's, the load balancer's and the service's in this
    order, with the ingress rules the stacks declare, the default rule that
    allows all outbound traffic and no other egress rule; the ids of the
    CfnOutput constructs are those that were there followed by the three of
    the application stack. *)
Theorem deploy_extends_any_tree pv process stage appName app0 stacks app :
  bin.deploy pv process stage appName app0 = inr (stacks, app) ->
  exists db alb svc,
    groups app = groups app0 ++ [db; alb; svc] /\
    (databaseStack.databaseSecurityGroup (bin.databaseStack stacks)
       = length (groups app0) /\
     appStack.ecsAlbSecurityGroup (bin.appStack stacks)
       = S (length (groups app0)) /\
     appStack.ecsServiceSecurityGroup (bin.appStack stacks)
       = S (S (length (groups app0)))) /\
    (ec2.ingressRules db =
       [rule (ec2.SecurityGroupPeer (S (S (length (groups app0)))))
          (ec2.Port.tcp 5432)
          "Allow traffic on port 5432 from the ECS service to the database"] /\
     ec2.ingressRules alb =
       [rule ec2.Peer.anyIpv4 (ec2.Port.tcp 80)
          "Allow HTTP traffic from anywhere"] /\
     ec2.ingressRules svc =
       [rule (ec2.SecurityGroupPeer (S (length (groups app0))))
          (ec2.Port.tcp 4000)
          "Allow TCP traffic on port 4000 from the load balancer";
        rule (ec2.Peer.ipv4 "10.0.0.0/21") ec2.Port.allTcp
          "Allow TCP traffic from other nodes for libcluster"]) /\
    (ec2.allowsAllOutbound db = true /\ ec2.allowsAllOutbound alb = true /\
     ec2.allowsAllOutbound svc = true) /\
    (ec2.egressRules db = [] /\ ec2.egressRules alb = [] /\
     ec2.egressRules svc = []) /\
    map outputId (outputs app) =
      map outputId (outputs app0)
      ++ ["Load balancer DNS name"; "GitHub OAuth Client ID ARN";
          "GitHub OAuth Client secret ARN"].
Proof.
  intros Hreturned.
  destruct (deploy_steps pv process stage appName app0)
    as (stacks0 & app1 & db & alb & svc & Hrun & Hrest).
  rewrite Hreturned in Hrun. injection Hrun as <- <-.
  exists db, alb, svc. exact Hrest.
Qed.

(** X1 for the tree the first two stacks of the script leave. *)
Lemma appStack_keeps_the_tree_example :
  exists tier app0 a app',
    bin.dataTier exampleProvider exampleProcess "staging" "demo" emptyApp
      = inr (tier, app0) /\
    let props :=
      scriptAppStackProps exampleProcess "staging" "demo" (fst tier) (snd tier)
    in
    Forall (fun g => (g < length (groups app0))%nat)
      (ec2.securityGroups (rds.connections (appStack.database props))) /\
    appStack.new exampleProvider "app-stack" props app0 = inr (a, app') /\
    length (groups app') = 3%nat.
Proof.
  destruct (dataTier_returns exampleProvider exampleProcess "staging" "demo")
    as (f & d & app0 & Hdata).
  assert (Hgroups :
            ec2.securityGroups
              (rds.connections (databaseStack.database (snd (f, d))))
            = [0%nat]) by observe Hdata.
  assert (Hlen : length (groups app0) = 1%nat) by observe Hdata.
  cbn [snd] in Hgroups.
  assert (HD : Forall (fun g => (g < length (groups app0))%nat)
                 (ec2.securityGroups
                    (rds.connections (databaseStack.database d)))).
  { rewrite Hgroups, Hlen. repeat constructor. }
  destruct (appStack_new_returns exampleProvider "app-stack"
              (scriptAppStackProps exampleProcess "staging" "demo" f d)
              (groups app0) (outputs app0))
    as (a & app' & Hrun & _).
  { exact HD. }
  unfold returns in Hrun.
  assert (Happ0 : {| groups := groups app0; outputs := outputs app0 |} = app0)
    by (destruct app0; reflexivity).
  rewrite Happ0 in Hrun.
  exists (f, d), app0, a, app'. split; [exact Hdata|]. cbv zeta.
  cbn [fst snd appStack.database scriptAppStackProps].
  split; [exact HD|]. split; [exact Hrun|].
  destruct (appStack_keeps_the_tree exampleProvider "app-stack"
              (scriptAppStackProps exampleProcess "staging" "demo" f d)
              app0 a app' HD Hrun)
    as ((_ & _ & Hlen') & _).
  rewrite Hlen', Hlen. reflexivity.
Defined.

(** X2 for a tree that holds a bastion host's security group and an
    output already. *)
Lemma deploy_extends_any_tree_example :
  exists stacks app,
    bin.deploy exampleProvider exampleProcess "staging" "demo" exampleTree
      = inr (stacks, app) /\
    length (groups app) = 4%nat /\
    head (groups app) = head (groups exampleTree) /\
    map outputId (outputs app) =
      ["Bastion address"; "Load balancer DNS name";
       "GitHub OAuth Client ID ARN"; "GitHub OAuth Client secret ARN"].
Proof.
  destruct (deploy_steps exampleProvider exampleProcess "staging" "demo"
              exampleTree)
    as (stacks & app & _ & _ & _ & Hrun & _).
  exists stacks, app. split; [exact Hrun|].
  destruct (deploy_extends_any_tree exampleProvider exampleProcess
              "staging" "demo" exampleTree stacks app Hrun)
    as (db & alb & svc & Hgroups & _ & _ & _ & _ & Houtputs).
  rewrite Hgroups, Houtputs. repeat split; reflexivity.
Defined.

(** ** Who may talk to whom *)

(** The load balancer's group lets anyone in on port 80. *)
Lemma alb_group_rules pv process stage appName stacks app :
  deploys pv process stage appName stacks app ->
  exists alb,
    groups app !! appStack.ecsAlbSecurityGroup (bin.appStack stacks)
      = Some alb /\
    ec2.ingressRules alb =
      [rule ec2.Peer.anyIpv4 (ec2.Port.tcp 80)
         "Allow HTTP traffic from anywhere"] /\
    ec2.egressRules alb = [] /\ ec2.allowsAllOutbound alb = true.
Proof.
  intros Hrun. apply group_with_rules. observe Hrun.
Qed.

(** 0.0.0.0/0 holds every IPv4 address. *)
Lemma any_address_range a :
  peerMatches ec2.Peer.anyIpv4 {| address := a; memberOf := [] |} = true <->
  0 <= a < 4294967296.
Proof.
  unfold peerMatches, ec2.Peer.anyIpv4.
  change (Cidr.parse "0.0.0.0/0") with (Some (0, 0)).
  unfold Cidr.contains. simpl address. rewrite Z.eqb_eq.
  change (32 - 0) with 32. rewrite !Z.shiftr_div_pow2 by lia.
  change (0 / 2 ^ 32) with 0. change (2 ^ 32) with 4294967296.
  split; intros H.
  - apply Z.div_small_iff in H; lia.
  - apply Z.div_small. exact H.
Qed.

Lemma anyIpv4_ignores_groups source :
  peerMatches ec2.Peer.anyIpv4 source =
  peerMatches ec2.Peer.anyIpv4 {| address := address source; memberOf := [] |}.
Proof. reflexivity. Qed.

(** X3.  The database's security group lets a packet in exactly when it is
    TCP, goes to port 5432 and comes from a member of the service's security
    group; 5432 is the port the database instance listens on, and the
    instance is not publicly accessible. *)
Theorem database_group_admission pv process stage appName :
  exists stacks app db,
    deploys pv process stage appName stacks app /\
    let instance := databaseStack.database (bin.databaseStack stacks) in
    let svc := appStack.ecsServiceSecurityGroup (bin.appStack stacks) in
    groups app
      !! databaseStack.databaseSecurityGroup (bin.databaseStack stacks)
      = Some db /\
    rds.securityGroups (rds.dbProps instance)
      = [databaseStack.databaseSecurityGroup (bin.databaseStack stacks)] /\
    (forall proto p source,
       admitsInbound db proto p source =
       bool_decide (proto = ec2.TCP)
       && (p =? rds.port (rds.dbProps instance))
       && bool_decide (svc ∈ memberOf source)) /\
    rds.port (rds.dbProps instance) = 5432 /\
    rds.publiclyAccessible (rds.dbProps instance) = false.
Proof.
  destruct (deploy_returns pv process stage appName) as (stacks & app & Hrun).
  destruct (database_group_rules _ _ _ _ _ _ Hrun)
    as (db & Hdb & Hin & _ & _).
  exists stacks, app, db. cbv zeta.
  assert (Hport :
            rds.port (rds.dbProps
                        (databaseStack.database (bin.databaseStack stacks)))
            = 5432) by observe Hrun.
  split; [exact Hrun|]. split; [exact Hdb|].
  split; [observe_both Hrun Hrun|]. split; [|split; [exact Hport|observe Hrun]].
  intros proto p source. rewrite Hport.
  unfold admitsInbound. rewrite Hin. unfold rule, ruleAdmits; simpl.
  rewrite covers_tcp, orb_false_r. reflexivity.
Qed.

(** X4.  The load balancer's security group lets a packet in exactly when
    it is TCP, goes to port 80 and comes from an IPv4 address, any of them;
    80 is the port of the listener, and the load balancer is internet-facing
    and uses this group. *)
Theorem load_balancer_group_admission pv process stage appName :
  exists stacks app alb,
    deploys pv process stage appName stacks app /\
    let lb := appStack.ecsLoadBalancer (bin.appStack stacks) in
    let listener := appStack.lbListener (bin.appStack stacks) in
    groups app !! appStack.ecsAlbSecurityGroup (bin.appStack stacks)
      = Some alb /\
    (elbv2.securityGroup (elbv2.loadBalancerProps lb)
       = appStack.ecsAlbSecurityGroup (bin.appStack stacks) /\
     elbv2.internetFacing (elbv2.loadBalancerProps lb) = true /\
     elbv2.listenerLoadBalancer listener = lb /\
     elbv2.listenerPort listener = 80) /\
    (forall proto p source,
       admitsInbound alb proto p source =
       bool_decide (proto = ec2.TCP)
       && (p =? elbv2.listenerPort listener)
       && bool_decide (0 <= address source < 4294967296)).
Proof.
  destruct (deploy_returns pv process stage appName) as (stacks & app & Hrun).
  destruct (alb_group_rules _ _ _ _ _ _ Hrun) as (alb & Halb & Hin & _ & _).
  exists stacks, app, alb. cbv zeta.
  assert (Hport :
            elbv2.listenerPort (appStack.lbListener (bin.appStack stacks))
            = 80) by observe Hrun.
  split; [exact Hrun|]. split; [exact Halb|]. split.
  { split; [observe_both Hrun Hrun|]. split; [observe Hrun|].
    split; [observe_both Hrun Hrun|exact Hport]. }
  intros proto p source. rewrite Hport.
  unfold admitsInbound. rewrite Hin. unfold rule, ruleAdmits.
  cbn [existsb ec2.peer ec2.connection].
  rewrite covers_tcp, orb_false_r. f_equal.
  rewrite anyIpv4_ignores_groups.
  apply eq_true_iff_eq. rewrite any_address_range, bool_decide_eq_true.
  reflexivity.
Qed.

(** X5.  The path of a request is open end to end, on the ports the
    constructs themselves carry: any IPv4 client reaches the load balancer on
    the listener's port; the load balancer's group reaches the service on
    the target group's port, which is the port the container listens on; the
    service's group may send to the database's port; and the service's group
    is let into the database's group on that port. *)
Theorem request_path_is_open pv process stage appName :
  exists stacks app alb svc db,
    deploys pv process stage appName stacks app /\
    let a := bin.appStack stacks in
    let listenerPort := elbv2.listenerPort (appStack.lbListener a) in
    let targetPort :=
      elbv2.targetPort (elbv2.targetGroupProps (appStack.lbTargetGroup a)) in
    let dbPort :=
      rds.port
        (rds.dbProps (databaseStack.database (bin.databaseStack stacks))) in
    (groups app !! appStack.ecsAlbSecurityGroup a = Some alb /\
     groups app !! appStack.ecsServiceSecurityGroup a = Some svc /\
     groups app
       !! databaseStack.databaseSecurityGroup (bin.databaseStack stacks)
       = Some db) /\
    map ecs.containerPort
      (ecs.portMappings (ecs.containerOptions (appStack.container a)))
      = [targetPort] /\
    ecs.loadBalancerTargetPort (appStack.ecsService a) = Some targetPort /\
    (forall client,
       0 <= address client < 4294967296 ->
       admitsInbound alb ec2.TCP listenerPort client = true) /\
    (forall balancer,
       appStack.ecsAlbSecurityGroup a ∈ memberOf balancer ->
       admitsInbound svc ec2.TCP targetPort balancer = true) /\
    (forall database, admitsOutbound svc ec2.TCP dbPort database = true) /\
    (forall task,
       appStack.ecsServiceSecurityGroup a ∈ memberOf task ->
       admitsInbound db ec2.TCP dbPort task = true).
Proof.
  destruct (deploy_returns pv process stage appName) as (stacks & app & Hrun).
  destruct (alb_group_rules _ _ _ _ _ _ Hrun) as (alb & Halb & Hain & _ & _).
  destruct (service_group_rules _ _ _ _ _ _ Hrun)
    as (svc & Hsvc & _ & _ & Hopen).
  destruct (database_group_rules _ _ _ _ _ _ Hrun)
    as (db & Hdb & Hdin & _ & _).
  exists stacks, app, alb, svc, db. cbv zeta.
  assert (Hlistener :
            elbv2.listenerPort (appStack.lbListener (bin.appStack stacks))
            = 80) by observe Hrun.
  assert (Htarget :
            elbv2.targetPort
              (elbv2.targetGroupProps
                 (appStack.lbTargetGroup (bin.appStack stacks)))
            = 4000) by observe Hrun.
  assert (Hport :
            rds.port (rds.dbProps
                        (databaseStack.database (bin.databaseStack stacks)))
            = 5432) by observe Hrun.
  rewrite Hlistener, Htarget, Hport.
  split; [exact Hrun|]. split; [repeat split; assumption|].
  split; [observe Hrun|]. split; [observe Hrun|].
  split; [|split; [|split]].
  - intros client Hclient. unfold admitsInbound. rewrite Hain.
    unfold rule, ruleAdmits. cbn [existsb ec2.peer ec2.connection].
    rewrite covers_tcp, anyIpv4_ignores_groups.
    rewrite (proj2 (any_address_range (address client)) Hclient).
    reflexivity.
  - intros balancer Hmember.
    rewrite (service_group_inbound _ _ _ _ _ _ _ Hrun Hsvc).
    rewrite (bool_decide_eq_true_2 _ Hmember). reflexivity.
  - intros database. unfold admitsOutbound. rewrite Hopen. reflexivity.
  - intros task Hmember. unfold admitsInbound. rewrite Hdin.
    unfold rule, ruleAdmits. cbn [existsb ec2.peer ec2.connection peerMatches].
    rewrite covers_tcp, (bool_decide_eq_true_2 _ Hmember). reflexivity.
Qed.

(** ** Names and regions *)

Lemma length_append (s t : string) :
  String.length (s +:+ t) = (String.length s + String.length t)%nat.
Proof.
  induction s as [|c s IH]; simpl; [reflexivity|]. rewrite IH. reflexivity.
Qed.

Lemma append_cons c (s t : string) : String c s +:+ t = String c (s +:+ t).
Proof. reflexivity. Qed.

Lemma append_assoc (s t u : string) : (s +:+ t) +:+ u = s +:+ (t +:+ u).
Proof.
  induction s as [|c s IH]; [reflexivity|].
  rewrite !append_cons, IH. reflexivity.
Qed.

(** Two strings that start alike for the same length start with the same
    string. *)
Lemma append_same_length (a b x y : string) :
  String.length a = String.length b ->
  a +:+ x = b +:+ y -> a = b /\ x = y.
Proof.
  revert b. induction a as [|c a IH]; intros [|d b] Hlen Heq;
    try discriminate.
  - split; [reflexivity|exact Heq].
  - rewrite !append_cons in Heq.
    injection Heq as Hc Heq. injection Hlen as Hlen.
    destruct (IH b Hlen Heq) as [-> ->]. rewrite Hc. split; reflexivity.
Qed.

Lemma append_inj_r (a b t : string) : a +:+ t = b +:+ t -> a = b.
Proof.
  intros Heq. apply (append_same_length a b t t); [|exact Heq].
  apply (f_equal String.length) in Heq. rewrite !length_append in Heq. lia.
Qed.

Lemma length_toLowerCase (s : string) :
  String.length (toLowerCase s) = String.length s.
Proof.
  induction s as [|c s IH]; simpl; [reflexivity|]. rewrite IH. reflexivity.
Qed.

(** The ARN of the service, spelled out in the inputs of the script. *)
Lemma service_arn_of_inputs pv process stage appName stacks app :
  deploys pv process stage appName stacks app ->
  appStack.ecsServiceArn (bin.appStack stacks) =
  documentedServiceArn (partitionName pv)
    (default (regionName pv) (bin.CDK_DEFAULT_REGION process))
    (default (accountId pv) (bin.CDK_DEFAULT_ACCOUNT process))
    (appName +:+ "-ecs-cluster") (appName +:+ "-ecs-service").
Proof.
  intros Hrun. observe Hrun.
Qed.

Lemma load_balancer_name_of_inputs pv process stage appName stacks app :
  deploys pv process stage appName stacks app ->
  elbv2.loadBalancerName
    (elbv2.loadBalancerProps (appStack.ecsLoadBalancer (bin.appStack stacks)))
  = Some ((stage +:+ "-" +:+ appName) +:+ "-ecs-lb").
Proof.
  intros Hrun. observe Hrun.
Qed.

(** X6.  AWS_ECS_CLUSTER_REGION is the region of the environment variable
    CDK_DEFAULT_REGION and the empty string when that variable is not set,
    while the region inside AWS_ECS_SERVICE_ARN is the stack's: the two agree
    when CDK_DEFAULT_REGION is set, and when it is not the container is told
    an empty region although its service ARN names the region of the
    deployment. *)
Theorem cluster_region_follows_environment pv process stage appName :
  exists stacks app,
    deploys pv process stage appName stacks app /\
    let a := bin.appStack stacks in
    let told := property "AWS_ECS_CLUSTER_REGION" (containerEnvironment stacks) in
    property "AWS_ECS_SERVICE_ARN" (containerEnvironment stacks) =
      Some (documentedServiceArn (partitionName pv)
              (Stack.region pv (appStack.this a))
              (Stack.account pv (appStack.this a))
              (appName +:+ "-ecs-cluster") (appName +:+ "-ecs-service")) /\
    match bin.CDK_DEFAULT_REGION process with
    | Some region =>
        told = Some region /\ Stack.region pv (appStack.this a) = region
    | None =>
        told = Some "" /\ Stack.region pv (appStack.this a) = regionName pv
    end.
Proof.
  destruct (deploy_returns pv process stage appName) as (stacks & app & Hrun).
  exists stacks, app. split; [exact Hrun|]. cbv zeta.
  assert (Htold :
            property "AWS_ECS_CLUSTER_REGION" (containerEnvironment stacks)
            = Some (default "" (bin.CDK_DEFAULT_REGION process)))
    by observe Hrun.
  assert (Hregion :
            Stack.region pv (appStack.this (bin.appStack stacks))
            = default (regionName pv) (bin.CDK_DEFAULT_REGION process))
    by observe Hrun.
  assert (Haccount :
            Stack.account pv (appStack.this (bin.appStack stacks))
            = default (accountId pv) (bin.CDK_DEFAULT_ACCOUNT process))
    by observe Hrun.
  split.
  - rewrite Hregion, Haccount. observe Hrun.
  - rewrite Htold, Hregion.
    destruct (bin.CDK_DEFAULT_REGION process); split; reflexivity.
Qed.

(** X7.  The load balancer is named after its construct id,
    <stage>-<appName>-ecs-lb: the name is eight characters longer than stage
    and appName together, so it fits the 32 characters a load balancer's name
    may have exactly when the two together have at most 24, and it is
    lowercase exactly when both stage and appName are. *)
Theorem load_balancer_name_shape pv process stage appName :
  exists stacks app name,
    deploys pv process stage appName stacks app /\
    let lb := appStack.ecsLoadBalancer (bin.appStack stacks) in
    elbv2.loadBalancerName (elbv2.loadBalancerProps lb) = Some name /\
    elbv2.loadBalancerPath lb
      = Stack.path (appStack.this (bin.appStack stacks)) name /\
    String.length name = (String.length stage + String.length appName + 8)%nat /\
    ((String.length name <= 32)%nat
       <-> (String.length stage + String.length appName <= 24)%nat) /\
    (toLowerCase name = name
       <-> toLowerCase stage = stage /\ toLowerCase appName = appName).
Proof.
  destruct (deploy_returns pv process stage appName) as (stacks & app & Hrun).
  exists stacks, app, ((stage +:+ "-" +:+ appName) +:+ "-ecs-lb").
  split; [exact Hrun|]. cbv zeta.
  split; [exact (load_balancer_name_of_inputs _ _ _ _ _ _ Hrun)|].
  split; [observe_both Hrun Hrun|].
  assert (Hlen :
            String.length ((stage +:+ "-" +:+ appName) +:+ "-ecs-lb")
            = (String.length stage + String.length appName + 8)%nat).
  { rewrite !length_append. simpl. lia. }
  split; [exact Hlen|]. split; [rewrite Hlen; lia|].
  split.
  - rewrite !toLowerCase_app. intros Hlower.
    change (toLowerCase "-ecs-lb") with "-ecs-lb" in Hlower.
    change (toLowerCase "-") with "-" in Hlower.
    apply append_inj_r in Hlower.
    apply append_same_length in Hlower; [|apply length_toLowerCase].
    destruct Hlower as [Hstage Hrest]. split; [exact Hstage|].
    exact (String.app_inj _ _ _ Hrest).
  - intros [Hstage HappName].
    exact (load_balancer_name_lowercase stage appName Hstage HappName).
Qed.

(** X8.  Which inputs tell two deployments to the same account and region
    apart: the cluster's name, the service's name and the service's ARN are
    the same exactly when the application names are, whatever the stages;
    the load balancer's name, for one application name, is the same exactly
    when the stages are. *)
Theorem names_tell_deployments_apart pv process stage1 appName1 stage2 appName2 :
  exists stacks1 app1 stacks2 app2,
    deploys pv process stage1 appName1 stacks1 app1 /\
    deploys pv process stage2 appName2 stacks2 app2 /\
    let a1 := bin.appStack stacks1 in
    let a2 := bin.appStack stacks2 in
    (appStack.ecsClusterName a1 = appStack.ecsClusterName a2
       <-> appName1 = appName2) /\
    (appStack.ecsServiceName a1 = appStack.ecsServiceName a2
       <-> appName1 = appName2) /\
    (appStack.ecsServiceArn a1 = appStack.ecsServiceArn a2
       <-> appName1 = appName2) /\
    (appName1 = appName2 ->
     (elbv2.loadBalancerName (elbv2.loadBalancerProps (appStack.ecsLoadBalancer a1))
      = elbv2.loadBalancerName (elbv2.loadBalancerProps (appStack.ecsLoadBalancer a2))
      <-> stage1 = stage2)).
Proof.
  destruct (deploy_returns pv process stage1 appName1)
    as (stacks1 & app1 & Hrun1).
  destruct (deploy_returns pv process stage2 appName2)
    as (stacks2 & app2 & Hrun2).
  exists stacks1, app1, stacks2, app2.
  split; [exact Hrun1|]. split; [exact Hrun2|]. cbv zeta.
  assert (Hc1 : appStack.ecsClusterName (bin.appStack stacks1)
                = appName1 +:+ "-ecs-cluster") by observe Hrun1.
  assert (Hc2 : appStack.ecsClusterName (bin.appStack stacks2)
                = appName2 +:+ "-ecs-cluster") by observe Hrun2.
  assert (Hs1 : appStack.ecsServiceName (bin.appStack stacks1)
                = appName1 +:+ "-ecs-service") by observe Hrun1.
  assert (Hs2 : appStack.ecsServiceName (bin.appStack stacks2)
                = appName2 +:+ "-ecs-service") by observe Hrun2.
  rewrite Hc1, Hc2, Hs1, Hs2.
  rewrite (service_arn_of_inputs _ _ _ _ _ _ Hrun1).
  rewrite (service_arn_of_inputs _ _ _ _ _ _ Hrun2).
  rewrite (load_balancer_name_of_inputs _ _ _ _ _ _ Hrun1).
  rewrite (load_balancer_name_of_inputs _ _ _ _ _ _ Hrun2).
  split; [|split; [|split]].
  - split; [apply append_inj_r|intros ->; reflexivity].
  - split; [apply append_inj_r|intros ->; reflexivity].
  - split; [|intros ->; reflexivity].
    unfold documentedServiceArn. intros Harn.
    repeat apply String.app_inj in Harn.
    assert (Hlen : String.length appName1 = String.length appName2).
    { apply (f_equal String.length) in Harn.
      rewrite !length_append in Harn. simpl in Harn. lia. }
    rewrite !append_assoc in Harn.
    exact (proj1 (append_same_length _ _ _ _ Hlen Harn)).
  - intros <-. split; [|intros ->; reflexivity].
    intros Hname. injection Hname as Hname.
    apply append_inj_r in Hname.
    exact (append_inj_r _ _ _ Hname).
Qed.

(** ** The ids of the constructs *)

Lemma endsWith_append (p s : string) : endsWith s (p +:+ s) = true.
Proof.
  induction p as [|c p IH].
  - change ("" +:+ s) with s.
    destruct s; cbn [endsWith]; rewrite String.eqb_refl; reflexivity.
  - rewrite append_cons. cbn [endsWith]. rewrite IH. apply orb_true_r.
Qed.

(** The paths of the application stack's constructs, in the inputs of the
    script. *)
Lemma app_stack_construct_paths pv process stage appName stacks app :
  deploys pv process stage appName stacks app ->
  constructPaths app (bin.appStack stacks) =
  ((fun suffix => "app-stack/" +:+ (stage +:+ "-" +:+ appName) +:+ suffix)
     <$> constructSuffixes)
  ++ ((fun id => "app-stack/" +:+ id) <$> outputIds).
Proof.
  intros Hrun. observe Hrun.
Qed.

(** X9.  Whatever the stage and the application name, the constructs the
    application stack creates get pairwise different paths: its two security
    groups, two roles, task definition, cluster, load balancer, listener,
    five secrets, container, service, target group and three outputs.  No id
    is used twice, so the constructor never meets a clash of ids. *)
Theorem construct_ids_distinct pv process stage appName :
  exists stacks app,
    deploys pv process stage appName stacks app /\
    length (constructPaths app (bin.appStack stacks)) = 19%nat /\
    NoDup (constructPaths app (bin.appStack stacks)).
Proof.
  destruct (deploy_returns pv process stage appName) as (stacks & app & Hrun).
  exists stacks, app. split; [exact Hrun|].
  rewrite (app_stack_construct_paths _ _ _ _ _ _ Hrun).
  split; [reflexivity|].
  apply NoDup_app. split; [|split].
  - apply NoDup_fmap_2.
    + intros s t Heq. do 2 apply String.app_inj in Heq. exact Heq.
    + apply (bool_decide_unpack _). vm_compute. exact I.
  - intros path Hsuffix Hid.
    apply list_elem_of_fmap in Hsuffix as (suffix & -> & Hsuffix).
    apply list_elem_of_fmap in Hid as (id & Heq & Hid).
    apply String.app_inj in Heq.
    assert (Hends : endsWith suffix id = true)
      by (rewrite <- Heq; apply endsWith_append).
    assert (Hnever :
              forallb (fun s => forallb (fun i => negb (endsWith s i)) outputIds)
                constructSuffixes = true) by (vm_compute; reflexivity).
    rewrite forallb_forall in Hnever.
    apply list_elem_of_In in Hsuffix, Hid.
    specialize (Hnever suffix Hsuffix). rewrite forallb_forall in Hnever.
    specialize (Hnever id Hid). rewrite Hends in Hnever. discriminate.
  - apply NoDup_fmap_2.
    + intros s t Heq. apply String.app_inj in Heq. exact Heq.
    + apply (bool_decide_unpack _). vm_compute. exact I.
Qed.

(** ** What the operator is shown, and what the container is handed *)

(** X10.  The script creates three CfnOutput constructs, all in the
    application stack and in this order: the host name of the load balancer,
    which is the value of PHX_HOST, and the ARNs of the two secrets bound to
    LIVE_BEATS_GITHUB_CLIENT_ID and LIVE_BEATS_GITHUB_CLIENT_SECRET.  The
    foundation and database stacks create none; the exports that synthesis
    adds to their templates for the values the script passes on to another
    stack are not CfnOutput constructs and are not meant here. *)
Theorem outputs_name_the_github_secrets pv process stage appName :
  exists stacks app,
    deploys pv process stage appName stacks app /\
    let a := bin.appStack stacks in
    outputs app =
      [ {| outputStack := "app-stack";
           outputId := "Load balancer DNS name";
           outputValue :=
             elbv2.loadBalancerDnsName (appStack.ecsLoadBalancer a) |};
        {| outputStack := "app-stack";
           outputId := "GitHub OAuth Client ID ARN";
           outputValue :=
             secretsManager.secretArn (appStack.liveBeatsGitHubClientIdSecret a) |};
        {| outputStack := "app-stack";
           outputId := "GitHub OAuth Client secret ARN";
           outputValue :=
             secretsManager.secretArn
               (appStack.liveBeatsGitHubClientSecretSecret a) |} ] /\
    property "PHX_HOST" (containerEnvironment stacks)
      = Some (elbv2.loadBalancerDnsName (appStack.ecsLoadBalancer a)) /\
    ecs.fromSecretArn
      <$> property "LIVE_BEATS_GITHUB_CLIENT_ID" (containerSecrets stacks)
      = Some (secretsManager.secretArn (appStack.liveBeatsGitHubClientIdSecret a)) /\
    ecs.fromSecretArn
      <$> property "LIVE_BEATS_GITHUB_CLIENT_SECRET" (containerSecrets stacks)
      = Some (secretsManager.secretArn
                (appStack.liveBeatsGitHubClientSecretSecret a)).
Proof.
  destruct (deploy_returns pv process stage appName) as (stacks & app & Hrun).
  exists stacks, app. split; [exact Hrun|]. cbv zeta.
  repeat split; observe_both Hrun Hrun.
Qed.

(** X11.  The container is handed eight secrets after six plain
    variables, under fourteen different names.  The four secrets the
    application stack generates are handed over whole, each under one name:
    64 characters for SECRET_KEY_BASE and RELEASE_COOKIE, 32 for the two
    GitHub values, letters and digits only.  The rest of the bindings are the
    fields of the database's secret. *)
Theorem generated_secrets_bound_whole pv process stage appName :
  exists stacks app,
    deploys pv process stage appName stacks app /\
    let a := bin.appStack stacks in
    wholeBindings (containerSecrets stacks) =
      [("SECRET_KEY_BASE",
        ecs.Secret.fromSecretsManager (appStack.secretKeyBaseSecret a) None);
       ("RELEASE_COOKIE",
        ecs.Secret.fromSecretsManager (appStack.releaseCookieSecret a) None);
       ("LIVE_BEATS_GITHUB_CLIENT_ID",
        ecs.Secret.fromSecretsManager
          (appStack.liveBeatsGitHubClientIdSecret a) None);
       ("LIVE_BEATS_GITHUB_CLIENT_SECRET",
        ecs.Secret.fromSecretsManager
          (appStack.liveBeatsGitHubClientSecretSecret a) None)] /\
    containerSecrets stacks
      = fieldBindings (containerSecrets stacks)
        ++ wholeBindings (containerSecrets stacks) /\
    secretsManager.generateSecretString
      <$> [appStack.secretKeyBaseSecret a; appStack.releaseCookieSecret a;
           appStack.liveBeatsGitHubClientIdSecret a;
           appStack.liveBeatsGitHubClientSecretSecret a]
      = Some <$> [appStack.randomString 64; appStack.randomString 64;
                  appStack.randomString 32; appStack.randomString 32] /\
    (forall n,
       secretsManager.excludePunctuation (appStack.randomString n) = Some true /\
       secretsManager.includeSpace (appStack.randomString n) = Some false /\
       secretsManager.passwordLength (appStack.randomString n) = Some n) /\
    secretsManager.generateSecretString (appStack.databaseCredentialsSecret a)
      = None /\
    NoDup ((fst <$> containerEnvironment stacks)
           ++ (fst <$> containerSecrets stacks)).
Proof.
  destruct (deploy_returns pv process stage appName) as (stacks & app & Hrun).
  exists stacks, app. split; [exact Hrun|]. cbv zeta.
  assert (Hnames :
            (fst <$> containerEnvironment stacks)
            ++ (fst <$> containerSecrets stacks)
            = ["PHX_HOST"; "POOL_SIZE"; "AWS_ECS_CLUSTER_REGION";
               "AWS_ECS_CLUSTER_NAME"; "AWS_ECS_SERVICE_ARN"; "DB_NAME";
               "DB_USERNAME"; "DB_PASSWORD"; "DB_HOST"; "DB_PORT";
               "SECRET_KEY_BASE"; "RELEASE_COOKIE";
               "LIVE_BEATS_GITHUB_CLIENT_ID";
               "LIVE_BEATS_GITHUB_CLIENT_SECRET"]) by observe Hrun.
  split; [observe_both Hrun Hrun|]. split; [observe_both Hrun Hrun|].
  split; [observe_both Hrun Hrun|].
  split; [intros n; repeat split|]. split; [observe Hrun|].
  rewrite Hnames. apply (bool_decide_unpack _). vm_compute. exact I.
Qed.

(** ** The roles of the tasks *)

(** X12.  The tasks of the service run under the two roles the application
    stack builds, both assumed by ecs-tasks.amazonaws.com, and the statements
    the stack adds to them grant what it switches on elsewhere: the service
    enables ECS Exec and the task role may open the four ssmmessages
    channels; the container is told the cluster's name and the service's ARN
    and the task role may list services and tasks and describe tasks; the
    container logs to CloudWatch and both roles may create log streams and
    put log events; the container is handed secrets and pulls its image and
    the execution role may read secret values and fetch image layers. *)
Theorem task_roles_and_their_grants pv process stage appName :
  exists stacks app,
    deploys pv process stage appName stacks app /\
    let a := bin.appStack stacks in
    let service := ecs.serviceProps (appStack.ecsService a) in
    let definition := ecs.taskDefinition service in
    let task := ecs.taskRole definition in
    let execution := ecs.executionRole definition in
    (task = appStack.taskRole a /\ execution = appStack.executionRole a) /\
    (iam.assumedBy task = "ecs-tasks.amazonaws.com" /\
     iam.assumedBy execution = "ecs-tasks.amazonaws.com") /\
    (iam.rolePath task
       = Stack.path (appStack.this a)
           ((stage +:+ "-" +:+ appName) +:+ "-ecs-task-role") /\
     iam.rolePath execution
       = Stack.path (appStack.this a)
           ((stage +:+ "-" +:+ appName) +:+ "-ecs-execution-role")) /\
    (ecs.enableExecuteCommand service = Some true /\
     Forall (fun action => action ∈ actionsOf task)
       ["ssmmessages:CreateControlChannel"; "ssmmessages:CreateDataChannel";
        "ssmmessages:OpenControlChannel"; "ssmmessages:OpenDataChannel"]) /\
    (is_Some (property "AWS_ECS_CLUSTER_NAME" (containerEnvironment stacks)) /\
     is_Some (property "AWS_ECS_SERVICE_ARN" (containerEnvironment stacks)) /\
     Forall (fun action => action ∈ actionsOf task)
       ["ecs:ListServices"; "ecs:ListTasks"; "ecs:DescribeTasks"]) /\
    (Forall (fun action => action ∈ actionsOf task /\ action ∈ actionsOf execution)
       ["logs:CreateLogStream"; "logs:PutLogEvents"]) /\
    (containerSecrets stacks <> [] /\
     Forall (fun action => action ∈ actionsOf execution)
       ["secretsmanager:GetSecretValue"; "ecr:GetAuthorizationToken";
        "ecr:BatchCheckLayerAvailability"; "ecr:GetDownloadUrlForLayer";
        "ecr:BatchGetImage"]) /\
    (actsOn "ssmmessages" task = true /\ actsOn "ssmmessages" execution = false /\
     actsOn "secretsmanager" execution = true /\
     actsOn "secretsmanager" task = false).
Proof.
  destruct (deploy_returns pv process stage appName) as (stacks & app & Hrun).
  exists stacks, app. split; [exact Hrun|]. cbv zeta.
  assert (Htask :
            actionsOf
              (ecs.taskRole
                 (ecs.taskDefinition
                    (ecs.serviceProps
                       (appStack.ecsService (bin.appStack stacks)))))
            = ["ssmmessages:CreateControlChannel";
               "ssmmessages:CreateDataChannel";
               "ssmmessages:OpenControlChannel";
               "ssmmessages:OpenDataChannel";
               "ecs:ListServices"; "ecs:ListTasks"; "ecs:DescribeTasks";
               "logs:CreateLogGroup"; "logs:CreateLogStream";
               "logs:DescribeLogStreams"; "logs:PutRetentionPolicy";
               "logs:PutLogEvents"]) by observe Hrun.
  assert (Hexecution :
            actionsOf
              (ecs.executionRole
                 (ecs.taskDefinition
                    (ecs.serviceProps
                       (appStack.ecsService (bin.appStack stacks)))))
            = ["ecr:GetAuthorizationToken"; "ecr:BatchCheckLayerAvailability";
               "ecr:GetDownloadUrlForLayer"; "ecr:BatchGetImage";
               "logs:CreateLogStream"; "logs:PutLogEvents";
               "ssm:GetParameters"; "secretsmanager:GetSecretValue";
               "kms:Decrypt"]) by observe Hrun.
  assert (Hcluster :
            property "AWS_ECS_CLUSTER_NAME" (containerEnvironment stacks)
            = Some (appName +:+ "-ecs-cluster")) by observe Hrun.
  assert (Harn :
            property "AWS_ECS_SERVICE_ARN" (containerEnvironment stacks)
            = Some (appStack.ecsServiceArn (bin.appStack stacks)))
    by observe_both Hrun Hrun.
  assert (Hsecrets : length (containerSecrets stacks) = 8%nat)
    by observe Hrun.
  split; [split; observe_both Hrun Hrun|].
  split; [split; observe Hrun|].
  split; [split; observe_both Hrun Hrun|].
  rewrite Htask, Hexecution, Hcluster, Harn.
  split; [split; [observe Hrun|]|].
  { repeat constructor; apply list_elem_of_In; simpl; tauto. }
  split; [split; [eexists; reflexivity|split; [eexists; reflexivity|]]|].
  { repeat constructor; apply list_elem_of_In; simpl; tauto. }
  split.
  { repeat constructor; apply list_elem_of_In; simpl; tauto. }
  split; [split|].
  { intros Hnone. rewrite Hnone in Hsecrets. discriminate. }
  { repeat constructor; apply list_elem_of_In; simpl; tauto. }
  unfold actsOn. rewrite Htask, Hexecution.
  repeat split; vm_compute; reflexivity.
Qed.

(** ** The accelerator in front of the load balancer *)

(** X13.  Whenever RoutingStack's constructor returns, run after the
    script with the application stack's load balancer, under whatever id and
    environment: it has changed no security group and has added one
    CfnOutput construct, the accelerator's host name.  Its listener takes
    port 80 only, the port of the load balancer's listener, keeps a client on
    one endpoint by its source address, and has one endpoint group whose only
    endpoint is the application stack's load balancer, with the client's
    address preserved; the group probes /signin over HTTP every 5 seconds,
    the same path and interval as the health check of the load balancer's
    target group. *)
Theorem routing_stack_fronts_the_load_balancer
    pv process stage appName id env stacks app routing app' :
  deploys pv process stage appName stacks app ->
  routingStack.new pv id
    {| routingStack.env := env;
       routingStack.stage := stage;
       routingStack.appName := appName;
       routingStack.vpc := foundationStack.vpc (bin.foundationStack stacks);
       routingStack.ecsLoadBalancer :=
         appStack.ecsLoadBalancer (bin.appStack stacks) |} app
    = inr (routing, app') ->
  let a := bin.appStack stacks in
  groups app' = groups app /\
  outputs app' =
    outputs app
    ++ [ {| outputStack := id;
            outputId := "Accelerator hostname";
            outputValue :=
              acceleratorDnsNameOf pv
                (id +:+ "/" +:+ (stage +:+ "-" +:+ appName)
                    +:+ "-accelerator") |} ] /\
  let listener := routingStack.acceleratorListener routing in
  globalaccelerator.clientAffinity listener = globalaccelerator.SOURCE_IP /\
  globalaccelerator.portRanges listener
    = [ {| globalaccelerator.fromPort :=
             elbv2.listenerPort (appStack.lbListener a);
           globalaccelerator.toPort := None |} ] /\
  exists group,
    globalaccelerator.endpointGroups listener = [group] /\
    globalaccelerator.endpoints group
      = [ {| globalaccelerator.endpointLoadBalancer :=
               appStack.ecsLoadBalancer a;
             globalaccelerator.preserveClientIp := true;
             globalaccelerator.weight := 128 |} ] /\
    globalaccelerator.healthCheckProtocol group = globalaccelerator.HTTP /\
    let check :=
      elbv2.healthCheck (elbv2.targetGroupProps (appStack.lbTargetGroup a)) in
    Some (globalaccelerator.healthCheckPath group) = elbv2.path check /\
    Some (globalaccelerator.healthCheckInterval group)
      = elbv2.interval check /\
    elbv2.targetProtocol (elbv2.targetGroupProps (appStack.lbTargetGroup a))
      = elbv2.HTTP.
Proof.
  intros Hrun Hreturned.
  cbv [routingStack.new andThen newCfnOutput pure] in Hreturned.
  injection Hreturned as <- <-. cbv zeta.
  split; [reflexivity|]. split; [reflexivity|].
  split; [reflexivity|].
  assert (Hport :
            elbv2.listenerPort (appStack.lbListener (bin.appStack stacks))
            = 80) by observe Hrun.
  rewrite Hport. split; [reflexivity|].
  eexists. split; [reflexivity|]. split; [reflexivity|].
  split; [reflexivity|].
  split; [symmetry; observe Hrun|]. split; [symmetry; observe Hrun|].
  observe Hrun.
Qed.

(** X13 for the stack routing-stack after the script at stage "staging",
    name "demo". *)
Lemma routing_stack_fronts_the_load_balancer_example :
  exists stacks app routing app',
    deploys exampleProvider exampleProcess "staging" "demo" stacks app /\
    routingStack.new exampleProvider "routing-stack"
      {| routingStack.env := Some (bin.envPrimaryRegion exampleProcess);
         routingStack.stage := "staging";
         routingStack.appName := "demo";
         routingStack.vpc := foundationStack.vpc (bin.foundationStack stacks);
         routingStack.ecsLoadBalancer :=
           appStack.ecsLoadBalancer (bin.appStack stacks) |} app
      = inr (routing, app') /\
    groups app' = groups app /\
    last (outputs app') =
      Some {| outputStack := "routing-stack";
              outputId := "Accelerator hostname";
              outputValue := "a1234567890abcdef.awsglobalaccelerator.com" |}.
Proof.
  destruct (deploy_returns exampleProvider exampleProcess "staging" "demo")
    as (stacks & app & Hrun).
  exists stacks, app. eexists _, _. split; [exact Hrun|].
  split; [reflexivity|].
  destruct (routing_stack_fronts_the_load_balancer exampleProvider
              exampleProcess "staging" "demo" "routing-stack"
              (Some (bin.envPrimaryRegion exampleProcess)) stacks app _ _
              Hrun eq_refl)
    as (Hgroups & Houtputs & _).
  split; [exact Hgroups|]. rewrite Houtputs, last_snoc. reflexivity.
Defined.

(** ** The network *)

(** X14.  The subnets the foundation stack asks for fill its network
    exactly: the block 10.0.0.0/21 holds 2048 addresses, and the four
    subnets, a public and a private isolated one in each of two zones, take
    512 each.  No subnet is of the kind that needs a NAT gateway, and the
    network has none. *)
Theorem subnets_fill_the_network pv process stage appName :
  exists stacks app base mask,
    deploys pv process stage appName stacks app /\
    let vpc := foundationStack.vpc (bin.foundationStack stacks) in
    Cidr.parse (ec2.Vpc.vpcCidrBlock vpc) = Some (base, mask) /\
    (forall a, inNetworkBlock vpc a = true
               <-> base <= a < base + blockSize mask) /\
    blockSize mask = 2048 /\
    length (ec2.Vpc.subnets vpc) = 4%nat /\
    Forall (fun c => blockSize (ec2.cidrMask c) = 512)
      (ec2.subnetConfiguration (ec2.vpcProps vpc)) /\
    subnetAddresses vpc = blockSize mask /\
    ec2.Vpc.ofType vpc ec2.PRIVATE_WITH_EGRESS = [] /\
    ec2.natGateways (ec2.vpcProps vpc) = 0.
Proof.
  destruct (deploy_returns pv process stage appName) as (stacks & app & Hrun).
  exists stacks, app, 167772160, 21. split; [exact Hrun|]. cbv zeta.
  assert (Hconfiguration :
            ec2.subnetConfiguration
              (ec2.vpcProps (foundationStack.vpc (bin.foundationStack stacks)))
            = [ {| ec2.cidrMask := 23; ec2.name := "public";
                   ec2.subnetType := ec2.PUBLIC |};
                {| ec2.cidrMask := 23; ec2.name := "private";
                   ec2.subnetType := ec2.PRIVATE_ISOLATED |} ])
    by observe Hrun.
  split.
  { rewrite (network_block _ _ _ _ _ _ Hrun). exact network_block_parse. }
  split.
  { intros a. rewrite (network_block_addresses _ _ _ _ _ _ Hrun a).
    change (167772160 + blockSize 21) with 167774208. reflexivity. }
  split; [reflexivity|]. split; [observe Hrun|].
  split; [rewrite Hconfiguration; repeat constructor|].
  split; [observe Hrun|]. split; observe Hrun.
Qed.
